(** * Metrics over a price table: a model of [metrics.py]

    [metrics.py] is a thin layer of polars calls.  The development has three
    layers:

    - the values the program manipulates: Python scalars, polars columns and
      data frames, the exceptions that can reach the caller;
    - the part of the polars expression language that [metrics.py] uses
      ([pl.col], arithmetic, [shift], [cum_prod], [cum_max], aggregations,
      [filter], [alias], [dt.strftime]) with [select] and [with_columns];
    - the methods of [Metrics], written call for call as in the source.

    Float64 arithmetic is kept abstract (class [Float64Ops]): every statement
    proved for an arbitrary instance holds whatever the rounding of a single
    operation.  There are two instances: [Binary64], the IEEE 754 doubles
    that polars and Python compute with, on which the code is run on concrete
    tables, and [Rational], exact arithmetic on fractions in lowest terms, for
    the statements that need the laws of an ordered field and for the value
    of a sum or of a standard deviation, which in binary64 depends on the
    order in which polars adds the terms. *)

From Stdlib Require Import String Ascii ZArith NArith QArith Qreduction.
From Stdlib Require Import Bool Arith Lia Lqa List.
From Stdlib Require PrimFloat Uint63.
Import ListNotations.

Local Open Scope string_scope.
Local Open Scope list_scope.
Local Open Scope nat_scope.

(** ** Exceptions and the error monad *)

Inductive AggregationType := DAY | WEEKLY | MONTHLY | QUARTERLY | YEARLY.

(** The two [ValueError]s that can be raised: "Aggregation type ... not
    supported. Choose from ..." of [metrics.py], and [DataFrame.item()] of
    polars on a frame whose shape is not (1, 1). *)
Inductive ValueErrorReason :=
| not_supported (convert_to : AggregationType)
| item_shape (rows cols : nat).

Inductive Exception :=
| ColumnNotFoundError (name : string)
| DuplicateError (name : string)
| ShapeError
| InvalidOperationError
| ValueError (reason : ValueErrorReason)
| TypeError
| ZeroDivisionError
| IndexError.

Inductive result (A : Type) :=
| Ok (a : A)
| Err (e : Exception).

Arguments Ok {A} a.
Arguments Err {A} e.

Definition bind {A B} (c : result A) (k : A -> result B) : result B :=
  match c with
  | Ok a => k a
  | Err e => Err e
  end.

Notation "x <- c ;; k" := (bind c (fun x => k))
  (at level 61, c at next level, right associativity).

Fixpoint mapM {A B} (f : A -> result B) (l : list A) : result (list B) :=
  match l with
  | [] => Ok []
  | a :: r => b <- f a ;; bs <- mapM f r ;; Ok (b :: bs)
  end.

(** ** Column names (the enum [ColumnNames], a [str] subclass) *)

Module ColumnNames.
Definition DATE := "date".
Definition CLOSE := "close".
Definition RETURN := "return".
Definition CUMULATIVE_RETURN := "cumulative_return".
End ColumnNames.
Import ColumnNames.

(** ** Float64 arithmetic *)

Class Float64Ops (F : Type) := {
  of_int : Z -> F;          (* conversion of a Python int *)
  fadd : F -> F -> F;
  fsub : F -> F -> F;
  fmul : F -> F -> F;
  fdiv : F -> F -> F;       (* polars division: no exception *)
  fsqrt : F -> F;           (* math.sqrt, and the root inside std *)
  fltb : F -> F -> bool;    (* x < y *)
  fis_zero : F -> bool      (* x == 0.0 *)
}.

(** Calendar dates are kept as fields, so that [strftime] is formatting. *)
Record date := mk_date { year : nat; month : nat; day : nat }.
Record datetime := mk_datetime { dt_date : date; microsecond : N }.

Inductive DataType :=
| Float64 | Int64 | UInt32 | Date | Datetime | Utf8 | Boolean.

Definition DataType_eqb (a b : DataType) : bool :=
  match a, b with
  | Float64, Float64 | Int64, Int64 | UInt32, UInt32 | Date, Date
  | Datetime, Datetime | Utf8, Utf8 | Boolean, Boolean => true
  | _, _ => false
  end.

(** [dtype.is_numeric()] of polars. *)
Definition is_numeric (t : DataType) : bool :=
  match t with
  | Float64 | Int64 | UInt32 => true
  | _ => false
  end.

Section Polars.

Context {F : Type} {ops : Float64Ops F}.

(** ** Data model *)

(** A column is typed by its constructor; [None] is polars' null. *)
Inductive Values :=
| Float64_values (xs : list (option F))
| Int64_values (xs : list (option Z))
| UInt32_values (xs : list (option N))
| Date_values (xs : list (option date))
| Datetime_values (xs : list (option datetime))
| Utf8_values (xs : list (option string))
| Boolean_values (xs : list (option bool)).

Record Series := mk_series { name : string; values : Values }.

(** The columns of a frame, left to right. *)
Definition DataFrame := list Series.

(** What [Series.__getitem__] and [DataFrame.item] hand back to Python. *)
Inductive PyValue :=
| PyNone
| PyFloat (x : F)
| PyInt (z : Z)
| PyStr (s : string)
| PyBool (b : bool)
| PyDate (d : date)
| PyDatetime (d : datetime).

Definition dtype (v : Values) : DataType :=
  match v with
  | Float64_values _ => Float64
  | Int64_values _ => Int64
  | UInt32_values _ => UInt32
  | Date_values _ => Date
  | Datetime_values _ => Datetime
  | Utf8_values _ => Utf8
  | Boolean_values _ => Boolean
  end.

Definition len (v : Values) : nat :=
  match v with
  | Float64_values xs => length xs
  | Int64_values xs => length xs
  | UInt32_values xs => length xs
  | Date_values xs => length xs
  | Datetime_values xs => length xs
  | Utf8_values xs => length xs
  | Boolean_values xs => length xs
  end.

Definition columns (df : DataFrame) : list string := map name df.
Definition dtypes (df : DataFrame) : list DataType :=
  map (fun s => dtype (values s)) df.

Definition height (df : DataFrame) : nat :=
  match df with
  | [] => 0
  | s :: _ => len (values s)
  end.

Definition lookup (df : DataFrame) (n : string) : option Series :=
  find (fun s => String.eqb (name s) n) df.

Definition get_column (df : DataFrame) (n : string) : result Series :=
  match lookup df n with
  | Some s => Ok s
  | None => Err (ColumnNotFoundError n)
  end.

Definition opt_py {A} (f : A -> PyValue) (o : option A) : PyValue :=
  match o with
  | Some a => f a
  | None => PyNone
  end.

(** [series[i]]: the element, null read as [None]; IndexError out of range. *)
Definition getitem (s : Series) (i : nat) : result PyValue :=
  let pick {A} (f : A -> PyValue) (xs : list (option A)) :=
    match nth_error xs i with
    | Some o => Ok (opt_py f o)
    | None => Err IndexError
    end in
  match values s with
  | Float64_values xs => pick PyFloat xs
  | Int64_values xs => pick PyInt xs
  | UInt32_values xs => pick (fun n => PyInt (Z.of_N n)) xs
  | Date_values xs => pick PyDate xs
  | Datetime_values xs => pick PyDatetime xs
  | Utf8_values xs => pick PyStr xs
  | Boolean_values xs => pick PyBool xs
  end.

(** [df.item()]: only a frame of shape (1, 1) has an item. *)
Definition item (df : DataFrame) : result PyValue :=
  match df with
  | [s] => if len (values s) =? 1 then getitem s 0
           else Err (ValueError (item_shape (len (values s)) 1))
  | _ => Err (ValueError (item_shape (height df) (length df)))
  end.

(** The values of a column that are not null, in order. *)
Definition non_null {A} (xs : list (option A)) : list A :=
  flat_map (fun o => match o with Some a => [a] | None => [] end) xs.

Definition count_non_null {A} (xs : list (option A)) : N :=
  N.of_nat (length (non_null xs)).

(** [df.count()]: one row, the number of non-null elements per column. *)
Definition count (df : DataFrame) : DataFrame :=
  map (fun s =>
         let c := match values s with
                  | Float64_values xs => count_non_null xs
                  | Int64_values xs => count_non_null xs
                  | UInt32_values xs => count_non_null xs
                  | Date_values xs => count_non_null xs
                  | Datetime_values xs => count_non_null xs
                  | Utf8_values xs => count_non_null xs
                  | Boolean_values xs => count_non_null xs
                  end in
         mk_series (name s) (UInt32_values [Some c])) df.

(** ** Column kernels *)

(** Null propagation of an elementwise binary operation. *)
Definition lift2 {A B C} (f : A -> B -> C) (a : option A) (b : option B)
  : option C :=
  match a, b with
  | Some x, Some y => Some (f x y)
  | _, _ => None
  end.

Fixpoint zip_with {A B C} (f : A -> B -> C) (xs : list A) (ys : list B)
  : list C :=
  match xs, ys with
  | x :: xs', y :: ys' => f x y :: zip_with f xs' ys'
  | _, _ => []
  end.

(** Elementwise operation on two columns; a column of length one (a literal
    or an aggregate) is broadcast. *)
Definition broadcast2 {A B C} (f : A -> B -> C) (xs : list A) (ys : list B)
  : result (list C) :=
  match xs, ys with
  | [x], _ => Ok (map (f x) ys)
  | _, [y] => Ok (map (fun x => f x y) xs)
  | _, _ => if length xs =? length ys then Ok (zip_with f xs ys)
            else Err ShapeError
  end.

(** [shift(n)] for n >= 0: n nulls enter on top, the length is kept. *)
Definition shift_list {A} (n : nat) (xs : list (option A))
  : list (option A) :=
  firstn (length xs) (repeat None n ++ xs).

(** [filter(mask)]: keeps the rows whose mask is true (a null mask drops). *)
Fixpoint filter_list {A} (xs : list A) (mask : list (option bool)) : list A :=
  match xs, mask with
  | x :: xs', Some true :: m' => x :: filter_list xs' m'
  | _ :: xs', _ :: m' => filter_list xs' m'
  | _, _ => []
  end.

Definition map_values (f : forall A, list (option A) -> list (option A))
  (v : Values) : Values :=
  match v with
  | Float64_values xs => Float64_values (f _ xs)
  | Int64_values xs => Int64_values (f _ xs)
  | UInt32_values xs => UInt32_values (f _ xs)
  | Date_values xs => Date_values (f _ xs)
  | Datetime_values xs => Datetime_values (f _ xs)
  | Utf8_values xs => Utf8_values (f _ xs)
  | Boolean_values xs => Boolean_values (f _ xs)
  end.

(** The larger of two values, by comparison (NaN is not modelled). *)
Definition fmax (a b : F) : F := if fltb a b then b else a.

(** The cumulative kernels of polars: a null row yields null and leaves the
    running state as it is; the first non-null value starts the state. *)
Fixpoint cum_scan (f : F -> F -> F) (state : option F)
  (xs : list (option F)) : list (option F) :=
  match xs with
  | [] => []
  | None :: r => None :: cum_scan f state r
  | Some v :: r =>
      let s := match state with
               | Some s => f s v
               | None => v
               end in
      Some s :: cum_scan f (Some s) r
  end.

(** Aggregations skip nulls; [sum] and [product] of nothing are 0 and 1,
    [max] of nothing is null.  The terms are added from the first row to
    the last; polars may add them in another order, which gives the same
    value in exact arithmetic and can differ in the last bits in binary64,
    so the value of a sum or of a standard deviation is only stated in exact
    arithmetic. *)
Definition agg_sum (xs : list (option F)) : option F :=
  Some (fold_left fadd (non_null xs) (of_int 0)).

Definition agg_product (xs : list (option F)) : option F :=
  Some (fold_left fmul (non_null xs) (of_int 1)).

Definition reduce (f : F -> F -> F) (l : list F) : option F :=
  match l with
  | [] => None
  | x :: r => Some (fold_left f r x)
  end.

Definition agg_max (xs : list (option F)) : option F :=
  reduce fmax (non_null xs).

(** Sample standard deviation (ddof = 1), written as its defining formula;
    null with fewer than two values.  In binary64 the kernel of polars
    rounds in another order and can differ in the last bit, or give NaN
    where this formula overflows: what is stated for every arithmetic is
    whether the result is null, and the value is stated in exact arithmetic
    ([agg_std_exact]). *)
Definition agg_std (xs : list (option F)) : option F :=
  let ys := non_null xs in
  let n := length ys in
  if n <=? 1 then None
  else
    let mean := fdiv (fold_left fadd ys (of_int 0)) (of_int (Z.of_nat n)) in
    let sq := map (fun y => fmul (fsub y mean) (fsub y mean)) ys in
    Some (fsqrt (fdiv (fold_left fadd sq (of_int 0))
                     (of_int (Z.of_nat (n - 1))))).

Definition two_digits (n : nat) : string :=
  String (ascii_of_nat (48 + (n / 10) mod 10))
    (String (ascii_of_nat (48 + n mod 10)) "").

Definition four_digits (n : nat) : string :=
  (two_digits (n / 100) ++ two_digits n)%string.

(** [strftime] for the directives %Y, %m and %d; other characters are
    copied.  The year is printed on four digits and the month and the day
    on two, as the library does for the years 0 to 9999. *)
Fixpoint strftime (d : date) (format : string) : string :=
  match format with
  | String "%" (String "Y" r) => (four_digits (year d) ++ strftime d r)%string
  | String "%" (String "m" r) => (two_digits (month d) ++ strftime d r)%string
  | String "%" (String "d" r) => (two_digits (day d) ++ strftime d r)%string
  | String c r => String c (strftime d r)
  | EmptyString => EmptyString
  end.

(** ** Expressions *)

(** A column name is the name of one column (polars also reads the names
    [*] and [^...$] as patterns; [pl.col("*")] has its own constructor). *)
Inductive Expr :=
| Col (name : string)                    (* pl.col(name) *)
| Star                                   (* pl.col("*") *)
| LitInt (z : Z)                         (* a Python int operand *)
| LitFloat (x : F)                       (* a Python float operand *)
| Add (a b : Expr)
| Sub (a b : Expr)
| TrueDiv (a b : Expr)
| Less (a b : Expr)                      (* a < b *)
| Shift (e : Expr) (n : nat)
| CumProd (e : Expr)
| CumMax (e : Expr)
| Product (e : Expr)
| Max (e : Expr)
| Sum (e : Expr)
| Std (e : Expr)
| Filter (e mask : Expr)
| Alias (e : Expr) (name : string)
| StrfTime (e : Expr) (format : string). (* .dt.strftime(format) *)

(** Arithmetic is modelled on Float64 columns, the only ones [metrics.py]
    computes on when it is given the frames it builds; an operand of another
    dtype ends the evaluation with [InvalidOperationError]. *)
Definition as_float64 (v : Values) : result (list (option F)) :=
  match v with
  | Float64_values xs => Ok xs
  | _ => Err InvalidOperationError
  end.

Definition as_boolean (v : Values) : result (list (option bool)) :=
  match v with
  | Boolean_values bs => Ok bs
  | _ => Err InvalidOperationError
  end.

Fixpoint eval (df : DataFrame) (e : Expr) : result Values :=
  let arith (f : F -> F -> F) (a b : Expr) :=
    va <- eval df a ;; vb <- eval df b ;;
    xs <- as_float64 va ;; ys <- as_float64 vb ;;
    zs <- broadcast2 (lift2 f) xs ys ;;
    Ok (Float64_values zs) in
  let column (f : list (option F) -> list (option F)) (a : Expr) :=
    va <- eval df a ;; xs <- as_float64 va ;; Ok (Float64_values (f xs)) in
  let aggregate (f : list (option F) -> option F) (a : Expr) :=
    va <- eval df a ;; xs <- as_float64 va ;; Ok (Float64_values [f xs]) in
  match e with
  | Col n => s <- get_column df n ;; Ok (values s)
  | Star => Err InvalidOperationError    (* expanded before evaluation *)
  | LitInt z => Ok (Float64_values [Some (of_int z)])
  | LitFloat x => Ok (Float64_values [Some x])
  | Add a b => arith fadd a b
  | Sub a b => arith fsub a b
  | TrueDiv a b => arith fdiv a b
  | Less a b =>
      va <- eval df a ;; vb <- eval df b ;;
      xs <- as_float64 va ;; ys <- as_float64 vb ;;
      bs <- broadcast2 (lift2 fltb) xs ys ;;
      Ok (Boolean_values bs)
  | Shift a n => va <- eval df a ;; Ok (map_values (fun _ => shift_list n) va)
  | CumProd a => column (cum_scan fmul None) a
  | CumMax a => column (cum_scan fmax None) a
  | Product a => aggregate agg_product a
  | Max a => aggregate agg_max a
  | Sum a => aggregate agg_sum a
  | Std a => aggregate agg_std a
  | Filter a m =>
      va <- eval df a ;; vm <- eval df m ;;
      bs <- as_boolean vm ;;
      if len va =? length bs
      then Ok (map_values (fun _ xs => filter_list xs bs) va)
      else Err ShapeError
  | Alias a _ => eval df a
  | StrfTime a format =>
      va <- eval df a ;;
      match va with
      | Date_values ds =>
          Ok (Utf8_values (map (option_map (fun d => strftime d format)) ds))
      | Datetime_values ds =>
          Ok (Utf8_values
                (map (option_map (fun d => strftime (dt_date d) format)) ds))
      | _ => Err InvalidOperationError
      end
  end.

(** The name of the column an expression produces: the alias if there is
    one, otherwise the name of its leftmost leaf. *)
Fixpoint output_name (e : Expr) : string :=
  match e with
  | Col n => n
  | Star => "*"
  | LitInt _ | LitFloat _ => "literal"
  | Add a _ | Sub a _ | TrueDiv a _ | Less a _ => output_name a
  | Shift a _ | CumProd a | CumMax a | Product a | Max a | Sum a | Std a =>
      output_name a
  | Filter a _ => output_name a
  | Alias _ n => n
  | StrfTime a _ => output_name a
  end.

(** [pl.col("*")] stands for every column of the frame, in order. *)
Definition expand (df : DataFrame) (e : Expr) : list Expr :=
  match e with
  | Star => map Col (columns df)
  | _ => [e]
  end.

Definition eval_named (df : DataFrame) (e : Expr) : result Series :=
  v <- eval df e ;; Ok (mk_series (output_name e) v).

Fixpoint first_duplicate (names : list string) : option string :=
  match names with
  | [] => None
  | n :: r => if existsb (String.eqb n) r then Some n else first_duplicate r
  end.

Definition check_unique (cols : list Series) : result unit :=
  match first_duplicate (map name cols) with
  | Some n => Err (DuplicateError n)
  | None => Ok tt
  end.

Definition check_heights (h : nat) (cols : list Series) : result unit :=
  if forallb (fun s => len (values s) =? h) cols then Ok tt
  else Err ShapeError.

(** [df.select(exprs)].  Every [select] of [metrics.py] holds either row-wise
    expressions or a single aggregate, so the columns it produces have one
    length (the broadcast of an aggregate next to a longer column is not
    needed and reported as [ShapeError]). *)
Definition select (df : DataFrame) (exprs : list Expr) : result DataFrame :=
  cols <- mapM (eval_named df) (flat_map (expand df) exprs) ;;
  _ <- check_unique cols ;;
  _ <- check_heights (height cols) cols ;;
  Ok cols.

(** A new column replaces the column of its name where it stands, or is
    appended at the right. *)
Fixpoint upsert (df : DataFrame) (s : Series) : DataFrame :=
  match df with
  | [] => [s]
  | c :: r => if String.eqb (name c) (name s) then s :: r
              else c :: upsert r s
  end.

Definition with_series (df : DataFrame) (cols : list Series)
  : result DataFrame :=
  _ <- check_unique cols ;;
  _ <- check_heights (match df with [] => height cols | _ => height df end)
         cols ;;
  Ok (fold_left upsert cols df).

(** [df.with_columns(exprs)] *)
Definition with_columns (df : DataFrame) (exprs : list Expr)
  : result DataFrame :=
  cols <- mapM (eval_named df) (flat_map (expand df) exprs) ;;
  with_series df cols.

(** [df.with_columns(other)] with a frame as argument: polars iterates over
    the columns of [other] and adds each as a literal column. *)
Definition with_columns_frame (df other : DataFrame) : result DataFrame :=
  with_series df other.

(** [df.group_by(key)] is lazy: it only records the frame and the key. *)
Record GroupBy := mk_group_by { gb_frame : DataFrame; gb_by : string }.

Definition group_by (df : DataFrame) (key : string) : GroupBy :=
  mk_group_by df key.

(** ** Python arithmetic on the scalars read back from polars *)

(** Operands are ints or floats; [None] (a null read back) and the other
    kinds raise [TypeError]. *)
Definition py_truediv (a b : PyValue) : result PyValue :=
  match a, b with
  | PyInt x, PyInt y =>
      if (y =? 0)%Z then Err ZeroDivisionError
      else Ok (PyFloat (fdiv (of_int x) (of_int y)))
  | PyFloat x, PyInt y =>
      if (y =? 0)%Z then Err ZeroDivisionError
      else Ok (PyFloat (fdiv x (of_int y)))
  | PyInt x, PyFloat y =>
      if fis_zero y then Err ZeroDivisionError
      else Ok (PyFloat (fdiv (of_int x) y))
  | PyFloat x, PyFloat y =>
      if fis_zero y then Err ZeroDivisionError
      else Ok (PyFloat (fdiv x y))
  | _, _ => Err TypeError
  end.

Definition py_mul (a b : PyValue) : result PyValue :=
  match a, b with
  | PyInt x, PyInt y => Ok (PyInt (x * y))
  | PyFloat x, PyInt y => Ok (PyFloat (fmul x (of_int y)))
  | PyInt x, PyFloat y => Ok (PyFloat (fmul (of_int x) y))
  | PyFloat x, PyFloat y => Ok (PyFloat (fmul x y))
  | _, _ => Err TypeError
  end.

Definition py_sub (a b : PyValue) : result PyValue :=
  match a, b with
  | PyInt x, PyInt y => Ok (PyInt (x - y))
  | PyFloat x, PyInt y => Ok (PyFloat (fsub x (of_int y)))
  | PyInt x, PyFloat y => Ok (PyFloat (fsub (of_int x) y))
  | PyFloat x, PyFloat y => Ok (PyFloat (fsub x y))
  | _, _ => Err TypeError
  end.

(** [math.sqrt(n)] for an int n >= 0. *)
Definition math_sqrt (n : Z) : PyValue := PyFloat (fsqrt (of_int n)).

(** ** The class [Metrics]; [data] is [self.data] *)

Definition numeric_columns (data : DataFrame) : list string :=
  map fst
    (List.filter (fun cd => DataType_eqb (snd cd) Float64)
       (combine (columns data) (dtypes data))).

Definition date_column (data : DataFrame) : list string :=
  map fst
    (List.filter
       (fun cd => DataType_eqb (snd cd) Date || DataType_eqb (snd cd) Datetime)
       (combine (columns data) (dtypes data))).

(** The final [else: raise ValueError] of the source is out of reach of the
    five members of the enum. *)
Definition annualization_faactor (convert_to : AggregationType) : Z :=
  match convert_to with
  | DAY => 252
  | WEEKLY => 52
  | MONTHLY => 12
  | QUARTERLY => 4
  | YEARLY => 1
  end.

Definition simple_returns (data : DataFrame) : result DataFrame :=
  numeric_df <- select data (map Col (numeric_columns data)) ;;
  returns <- select numeric_df
               [ Star;
                 Alias (Sub (TrueDiv (Col CLOSE) (Shift (Col CLOSE) 1))
                            (LitInt 1)) RETURN ] ;;
  dates <- select data [Col DATE] ;;
  with_columns_frame dates returns.

Definition cumulative_returns (simple_returns : DataFrame)
  : result DataFrame :=
  select simple_returns
    [ Col DATE;
      Col RETURN;
      Alias (CumProd (Add (LitInt 1) (Col RETURN))) CUMULATIVE_RETURN ].

Definition cumulative_return_final (cumulative_returns : DataFrame)
  : result PyValue :=
  result <- select cumulative_returns
              [ Alias (Product (Add (LitInt 1) (Col CUMULATIVE_RETURN)))
                      "cumulative_return_final" ] ;;
  s <- get_column result CUMULATIVE_RETURN ;;
  getitem s 0.

Definition aggregate_returns (data : DataFrame) (convert_to : AggregationType)
  : result GroupBy :=
  let _group_by_key := "group_by_key" in
  returns <- simple_returns data ;;
  match convert_to with
  | MONTHLY =>
      keyed <- with_columns returns
                 [Alias (StrfTime (Col DATE) "%Y-%m") _group_by_key] ;;
      Ok (group_by keyed _group_by_key)
  | YEARLY =>
      keyed <- with_columns returns
                 [Alias (StrfTime (Col DATE) "%Y") _group_by_key] ;;
      Ok (group_by keyed _group_by_key)
  | _ => Err (ValueError (not_supported convert_to))
  end.

Definition max_drawdown (simple_returns : DataFrame) : result PyValue :=
  cumulative_returns <- cumulative_returns simple_returns ;;
  a <- with_columns cumulative_returns
         [Alias (CumMax (Col "cumulative_return")) "max_return"] ;;
  b <- with_columns a
         [Alias (Sub (TrueDiv (Col "cumulative_return") (Col "max_return"))
                     (LitInt 1)) "drawdown"] ;;
  c <- select b [Alias (Max (Col "drawdown")) "max_drawdown"] ;;
  item c.

Section Power.

(** The float power of Python ([**]), left uninterpreted. *)
Variable pow : F -> F -> F.

Definition py_pow (a b : PyValue) : result PyValue :=
  match a, b with
  | PyFloat x, PyFloat y => Ok (PyFloat (pow x y))
  | PyInt x, PyFloat y => Ok (PyFloat (pow (of_int x) y))
  | PyFloat x, PyInt y => Ok (PyFloat (pow x (of_int y)))
  | PyInt x, PyInt y => Ok (PyFloat (pow (of_int x) (of_int y)))
  | _, _ => Err TypeError
  end.

Definition compound_annual_growth_rate (simple_returns : DataFrame)
  (period : AggregationType) : result PyValue :=
  let ann_factor := annualization_faactor period in
  rows <- item (count simple_returns) ;;
  num_years <- py_truediv rows (PyInt ann_factor) ;;
  cumulative <- cumulative_returns simple_returns ;;
  ending_value <- cumulative_return_final cumulative ;;
  exponent <- py_truediv (PyInt 1) num_years ;;
  power <- py_pow ending_value exponent ;;
  py_sub power (PyInt 1).

End Power.

Definition annual_volatility (simple_returns : DataFrame)
  (period : AggregationType) : result PyValue :=
  let ann_factor := annualization_faactor period in
  r <- select simple_returns [Alias (Std (Col RETURN)) "annual_volatility"] ;;
  s <- get_column r "annual_volatility" ;;
  x <- getitem s 0 ;;
  py_mul x (math_sqrt ann_factor).

Definition omega_ratio (simple_returns : DataFrame) (risk_free_rate : F)
  (period : AggregationType) : result PyValue :=
  let ann_factor := annualization_faactor period in
  r <- select simple_returns
         [Alias (Sum (Filter (Sub (Col RETURN) (LitFloat risk_free_rate))
                             (Less (Col RETURN) (LitFloat risk_free_rate))))
                "omega_ratio"] ;;
  s <- get_column r "omega_ratio" ;;
  x <- getitem s 0 ;;
  q <- py_truediv x (PyInt ann_factor) ;;
  volatility <- annual_volatility simple_returns period ;;
  py_truediv q volatility.

Definition sharpe_ratio (simple_returns : DataFrame) (risk_free_rate : F)
  (period : AggregationType) : result PyValue :=
  let ann_factor := annualization_faactor period in
  r <- select simple_returns
         [Alias (Sum (Sub (Col "simple_return") (LitFloat risk_free_rate)))
                "excess_return"] ;;
  s <- get_column r "excess_return" ;;
  x <- getitem s 0 ;;
  q <- py_truediv x (PyInt ann_factor) ;;
  volatility <- annual_volatility simple_returns period ;;
  py_truediv q volatility.

Definition sortino_ratio (simple_returns : DataFrame) (risk_free_rate : F)
  (period : AggregationType) : result PyValue :=
  let ann_factor := annualization_faactor period in
  r <- select simple_returns
         [Alias (Sum (Filter (Sub (Col "simple_return")
                                  (LitFloat risk_free_rate))
                             (Less (Col "simple_return")
                                   (LitFloat risk_free_rate))))
                "downside_return"] ;;
  s <- get_column r "downside_return" ;;
  x <- getitem s 0 ;;
  q <- py_truediv x (PyInt ann_factor) ;;
  volatility <- annual_volatility simple_returns period ;;
  py_truediv q volatility.

Section Calmar.

(** The float power and the float absolute value of Python, left
    uninterpreted. *)
Variable pow : F -> F -> F.
Variable fabs : F -> F.

(** [abs(x)] for an int or a float; [abs(None)] raises [TypeError]. *)
Definition py_abs (a : PyValue) : result PyValue :=
  match a with
  | PyInt z => Ok (PyInt (Z.abs z))
  | PyFloat x => Ok (PyFloat (fabs x))
  | _ => Err TypeError
  end.

Definition calmar_ratio (simple_returns : DataFrame)
  (period : AggregationType) : result PyValue :=
  cagr <- compound_annual_growth_rate pow simple_returns period ;;
  drawdown <- max_drawdown simple_returns ;;
  max_drawdown_abs <- py_abs drawdown ;;
  py_truediv cagr max_drawdown_abs.

End Calmar.

(** ** The frames the methods are meant for *)

Definition float_column (df : DataFrame) (n : string)
  : option (list (option F)) :=
  match lookup df n with
  | Some s => match values s with
              | Float64_values xs => Some xs
              | _ => None
              end
  | None => None
  end.

(** What polars guarantees of any frame: column names are unique and all
    columns have the height of the frame. *)
Definition wf_frame (df : DataFrame) : bool :=
  match first_duplicate (columns df) with
  | None => forallb (fun s => len (values s) =? height df) df
  | Some _ => false
  end.

(** A price table: a frame with a column [date] and a Float64 column
    [close], in which the name [return], which [simple_returns] gives to the
    column it adds, is not yet taken by a Float64 column. *)
Definition price_table (data : DataFrame) : bool :=
  wf_frame data
  && match lookup data DATE with Some _ => true | None => false end
  && match float_column data CLOSE with Some _ => true | None => false end
  && negb (existsb (String.eqb RETURN) (numeric_columns data)).

(** A return series: a column [date] and a Float64 column [return] of the
    same length. *)
Definition return_series (df : DataFrame) : bool :=
  match lookup df DATE, float_column df RETURN with
  | Some ds, Some rs => len (values ds) =? length rs
  | _, _ => false
  end.

(** ** The columns the methods compute, in closed form *)

Definition is_float64 (s : Series) : bool :=
  DataType_eqb (dtype (values s)) Float64.

(** The column [return] computed from the column [close]. *)
Definition return_column (close : list (option F)) : list (option F) :=
  map (fun q => lift2 fsub q (Some (of_int 1)))
    (zip_with (lift2 fdiv) close (shift_list 1 close)).

(** The column [cumulative_return] computed from the column [return]. *)
Definition cumulative_column (returns : list (option F))
  : list (option F) :=
  cum_scan fmul None (map (lift2 fadd (Some (of_int 1))) returns).

(** The column [drawdown] computed from the column [cumulative_return]. *)
Definition drawdown_column (cumulative : list (option F))
  : list (option F) :=
  map (fun q => lift2 fsub q (Some (of_int 1)))
    (zip_with (lift2 fdiv) cumulative (cum_scan fmax None cumulative)).

(** The value a cumulative kernel has reached after the non-null values
    [l], started in state [st]. *)
Definition scan_state (f : F -> F -> F) (st : option F) (l : list F)
  : option F :=
  match st with
  | Some s => Some (fold_left f l s)
  | None => reduce f l
  end.

(** A column of [n] rows: null on the first row, [x] on the others. *)
Definition after_first_row (x : F) (n : nat) : list (option F) :=
  match n with
  | 0 => []
  | S k => None :: repeat (Some x) k
  end.

(** The frame [cumulative_returns] builds. *)
Definition cumulative_returns_frame (dates : Series)
  (returns : list (option F)) : DataFrame :=
  [ dates;
    mk_series RETURN (Float64_values returns);
    mk_series CUMULATIVE_RETURN (Float64_values (cumulative_column returns)) ].

Definition return_series_of (close : list (option F)) : Series :=
  mk_series RETURN (Float64_values (return_column close)).

(** The frame [simple_returns] builds: the date column, then the Float64
    columns and the column [return] set into it. *)
Definition simple_returns_frame (data : DataFrame) (dates : Series)
  (close : list (option F)) : DataFrame :=
  fold_left upsert
    (List.filter is_float64 data ++ [return_series_of close])
    [dates].

(** The calendar dates of a temporal column. *)
Definition dates_of (v : Values) : option (list (option date)) :=
  match v with
  | Date_values ds => Some ds
  | Datetime_values ds => Some (map (option_map dt_date) ds)
  | _ => None
  end.

(** The [strftime] format [aggregate_returns] buckets a period with. *)
Definition bucket_format (convert_to : AggregationType) : option string :=
  match convert_to with
  | MONTHLY => Some "%Y-%m"
  | YEARLY => Some "%Y"
  | _ => None
  end.

(** ** The quantities of the specification, row by row *)

(** [close[t] / close[t-1] - 1]; undefined on the first row. *)
Definition spec_simple_return (close : list (option F)) (t : nat)
  : option (option F) :=
  match t with
  | 0 => match close with [] => None | _ => Some None end
  | S p =>
      match nth_error close (S p), nth_error close p with
      | Some now, Some before =>
          Some (lift2 fsub (lift2 fdiv now before) (Some (of_int 1)))
      | _, _ => None
      end
  end.

(** The product of [1 + return] over the rows up to [t] whose return is
    defined; undefined where the return of row [t] is. *)
Definition spec_running_product (returns : list (option F)) (t : nat)
  : option (option F) :=
  match nth_error returns t with
  | Some (Some _) =>
      Some (reduce fmul
              (map (fadd (of_int 1)) (non_null (firstn (S t) returns))))
  | Some None => Some None
  | None => None
  end.



(** The sum of [return - risk_free_rate] over the rows that satisfy
    [keep]. *)
Definition spec_excess_sum (keep : F -> bool) (returns : list (option F))
  (risk_free_rate : F) : F :=
  fold_left fadd
    (map (fun r => fsub r risk_free_rate)
       (List.filter keep (non_null returns)))
    (of_int 0).

End Polars.

Arguments Values F : clear implicits.
Arguments Series F : clear implicits.
Arguments DataFrame F : clear implicits.
Arguments PyValue F : clear implicits.
Arguments Expr F : clear implicits.
Arguments GroupBy F : clear implicits.

(** ** Two arithmetics *)

(** Exact arithmetic on fractions kept in lowest terms, so that equal
    numbers are equal terms.  The square root is rounded down to nine
    decimal places ([Q_sqrt_floor]).  [x / 0] is 0 in [Q], where binary64
    gives an infinity or NaN; the bounds and the values proved in exact
    arithmetic are those of divisions by numbers different from 0. *)
Definition Q_sqrt (x : Q) : Q :=
  Qred (Z.sqrt ((Qnum x * 10 ^ 18) / Zpos (Qden x)) # 1000000000).

#[export] Instance Rational : Float64Ops Q := {|
  of_int z := inject_Z z;
  fadd x y := Qred (x + y);
  fsub x y := Qred (x - y);
  fmul x y := Qred (x * y);
  fdiv x y := Qred (x / y);
  fsqrt := Q_sqrt;
  fltb x y := match (x ?= y)%Q with Lt => true | _ => false end;
  fis_zero x := Qeq_bool x 0
|}.

(** IEEE 754 binary64, the arithmetic of [pl.Float64] and of Python floats.
    The conversion of an int is exact below 2^53.  A comparison with NaN is
    false, as in IEEE 754 and in Python; polars orders NaN above every
    number, so a filter against a NaN is outside what the instance is used
    for. *)
Definition float_of_Z (z : Z) : PrimFloat.float :=
  match z with
  | Z0 => PrimFloat.zero
  | Zpos _ => PrimFloat.of_uint63 (Uint63.of_Z z)
  | Zneg n => PrimFloat.opp (PrimFloat.of_uint63 (Uint63.of_Z (Zpos n)))
  end.

#[export] Instance Binary64 : Float64Ops PrimFloat.float := {|
  of_int := float_of_Z;
  fadd := PrimFloat.add;
  fsub := PrimFloat.sub;
  fmul := PrimFloat.mul;
  fdiv := PrimFloat.div;
  fsqrt := PrimFloat.sqrt;
  fltb := PrimFloat.ltb;
  fis_zero x := PrimFloat.eqb x PrimFloat.zero
|}.

(** ** The quantities of the specification in exact arithmetic *)






(** A date the model of [strftime] formats as the library does: the year
    has at most four digits and the month at most two. *)
Definition formattable (o : option date) : Prop :=
  match o with
  | Some d => (Z.of_nat (year d) < 10000)%Z /\ month d < 100
  | None => True
  end.

(** ** Concrete tables, in either arithmetic *)

Section Tables.

Context {F : Type} {ops : Float64Ops F}.

Definition three_days : Values F :=
  Date_values [ Some (mk_date 2024 1 30); Some (mk_date 2024 1 31);
                Some (mk_date 2024 2 1) ].

Definition floats_of (l : list Z) : Values F :=
  Float64_values (map (fun z => Some (of_int z)) l).

(** Closing prices 100, 110, 121. *)
Definition prices_100_110_121 : DataFrame F :=
  [ mk_series "date" three_days;
    mk_series "close" (floats_of [100; 110; 121]%Z) ].

(** The same prices held as integers. *)
Definition prices_int64 : DataFrame F :=
  [ mk_series "date" three_days;
    mk_series "close" (Int64_values [Some 100%Z; Some 110%Z; Some 121%Z]) ].

(** A price table that already has a Float64 column named [return]. *)
Definition prices_with_return : DataFrame F :=
  [ mk_series "date" three_days;
    mk_series "close" (floats_of [100; 110; 121]%Z);
    mk_series "return" (Float64_values [None; None; None]) ].

(** One observation. *)
Definition single_price : DataFrame F :=
  [ mk_series "date" (Date_values [Some (mk_date 2024 1 30)]);
    mk_series "close" (floats_of [100]%Z) ].

(** A constant price. *)
Definition prices_5_5_5 : DataFrame F :=
  [ mk_series "date" three_days;
    mk_series "close" (floats_of [5; 5; 5]%Z) ].

(** Prices 100, 90, 99 next to a volume with a gap and a ticker. *)
Definition prices_100_90_99 : DataFrame F :=
  [ mk_series "date" three_days;
    mk_series "close" (floats_of [100; 90; 99]%Z);
    mk_series "volume"
      (Float64_values [Some (of_int 7); None; Some (of_int 9)]);
    mk_series "ticker" (Utf8_values [Some "X"; Some "X"; Some "X"]) ].

(** The frame [simple_returns] makes of a table (empty if it raises). *)
Definition returns_of (data : DataFrame F) : DataFrame F :=
  match simple_returns data with
  | Ok rs_frame => rs_frame
  | Err _ => []
  end.

(** Returns -3/2 and 1: the cumulative return turns negative, as with a
    price that changes sign. *)
Definition returns_below_minus_one : DataFrame F :=
  [ mk_series "date"
      (Date_values [Some (mk_date 2024 1 30); Some (mk_date 2024 1 31)]);
    mk_series "return"
      (Float64_values
         [Some (fdiv (of_int (-3)) (of_int 2)); Some (of_int 1)]) ].

(** Prices whose dates are in a column named [timestamp]. *)
Definition prices_by_timestamp : DataFrame F :=
  [ mk_series "timestamp" three_days;
    mk_series "close" (floats_of [100; 110; 121]%Z) ].

(** Prices whose column [date] holds day numbers as floats. *)
Definition prices_numbered_days : DataFrame F :=
  [ mk_series "date" (floats_of [19752; 19753; 19754]%Z);
    mk_series "close" (floats_of [100; 110; 121]%Z) ].

(** Two observations. *)
Definition two_prices : DataFrame F :=
  [ mk_series "date"
      (Date_values [Some (mk_date 2024 1 30); Some (mk_date 2024 1 31)]);
    mk_series "close" (floats_of [100; 110]%Z) ].

(** A return series that carries its returns under both names. *)
Definition returns_under_both_names : DataFrame F :=
  [ mk_series "date" three_days;
    mk_series "return"
      (Float64_values [None; Some (of_int (-1)); Some (of_int 2)]);
    mk_series "simple_return"
      (Float64_values [None; Some (of_int (-1)); Some (of_int 2)]) ].


(** A price of zero followed by a price of one. *)
Definition prices_0_1 : DataFrame F :=
  [ mk_series "date"
      (Date_values [Some (mk_date 2024 1 30); Some (mk_date 2024 1 31)]);
    mk_series "close" (floats_of [0; 1]%Z) ].

End Tables.

(** * Properties *)

Section Frames.

Context {F : Type} {ops : Float64Ops F}.

Implicit Types (df data : DataFrame F) (s : Series F) (n : string).

(** ** Lookup and unique names *)

Lemma lookup_name df n s : lookup df n = Some s -> name s = n.
Proof.
  unfold lookup. intros H. apply find_some in H.
  now apply String.eqb_eq.
Qed.

Lemma lookup_In df n s : lookup df n = Some s -> In s df.
Proof.
  unfold lookup. intros H. now apply find_some in H.
Qed.

Lemma lookup_None df n : lookup df n = None -> ~ In n (columns df).
Proof.
  unfold lookup, columns. intros H Hin.
  apply in_map_iff in Hin. destruct Hin as [s [Hs Hin]].
  apply (find_none _ _ H) in Hin. rewrite Hs, String.eqb_refl in Hin.
  discriminate.
Qed.

Lemma existsb_eqb_In n (l : list string) :
  existsb (String.eqb n) l = true <-> In n l.
Proof.
  rewrite existsb_exists. split.
  - intros [x [Hin Heq]]. apply String.eqb_eq in Heq. now subst.
  - intros Hin. exists n. split; [assumption | apply String.eqb_refl].
Qed.

Lemma first_duplicate_NoDup (l : list string) :
  first_duplicate l = None <-> NoDup l.
Proof.
  induction l as [|n r IH]; simpl.
  - split; [constructor | reflexivity].
  - destruct (existsb (String.eqb n) r) eqn:E.
    + split; [discriminate |].
      intros H. inversion H; subst.
      apply existsb_eqb_In in E. contradiction.
    + rewrite IH. split.
      * intros H. constructor; [| assumption].
        intros Hin. apply existsb_eqb_In in Hin. congruence.
      * intros H. now inversion H.
Qed.

Lemma lookup_unique df s :
  NoDup (columns df) -> In s df -> lookup df (name s) = Some s.
Proof.
  induction df as [|c r IH]; simpl; [contradiction |].
  intros Hnd [-> | Hin].
  - now rewrite String.eqb_refl.
  - inversion Hnd as [|? ? Hc Hr]; subst.
    destruct (String.eqb (name c) (name s)) eqn:E.
    + apply String.eqb_eq in E. exfalso. apply Hc. rewrite E.
      now apply in_map.
    + now apply IH.
Qed.

Lemma columns_filter_incl (p : Series F -> bool) df n :
  In n (columns (List.filter p df)) -> In n (columns df).
Proof.
  unfold columns. rewrite !in_map_iff.
  intros [s [Hs Hin]]. apply filter_In in Hin. exists s. tauto.
Qed.

Lemma NoDup_columns_filter (p : Series F -> bool) df :
  NoDup (columns df) -> NoDup (columns (List.filter p df)).
Proof.
  induction df as [|c r IH]; simpl; [trivial |].
  intros H. inversion H; subst.
  destruct (p c); simpl; [constructor |]; auto.
  intros Hin. now apply columns_filter_incl in Hin.
Qed.

(** ** The error monad on lists of expressions *)

Lemma mapM_app {A B} (f : A -> result B) (l1 l2 : list A) :
  mapM f (l1 ++ l2) =
  (a <- mapM f l1 ;; b <- mapM f l2 ;; Ok (a ++ b)).
Proof.
  induction l1 as [|x r IH]; simpl.
  - now destruct (mapM f l2).
  - destruct (f x); simpl; [| reflexivity].
    rewrite IH. destruct (mapM f r); simpl; [| reflexivity].
    now destruct (mapM f l2).
Qed.

Lemma series_eta s : mk_series (name s) (values s) = s.
Proof. now destruct s. Qed.

Lemma eval_named_Col df s :
  lookup df (name s) = Some s -> eval_named df (Col (name s)) = Ok s.
Proof.
  intros H. unfold eval_named. simpl. unfold get_column. rewrite H. simpl.
  now rewrite series_eta.
Qed.

Lemma eval_named_Alias df (e : Expr F) n :
  eval_named df (Alias e n) = (v <- eval df e ;; Ok (mk_series n v)).
Proof. reflexivity. Qed.

Lemma mapM_columns df (sub : list (Series F)) :
  NoDup (columns df) -> incl sub df ->
  mapM (eval_named df) (map Col (columns sub)) = Ok sub.
Proof.
  intros Hnd. induction sub as [|s r IH]; intros Hincl; simpl.
  - reflexivity.
  - rewrite eval_named_Col.
    + cbn [bind]. fold (columns r). rewrite IH; [reflexivity |].
      intros x Hx. apply Hincl. now right.
    + apply lookup_unique; [assumption |]. apply Hincl. now left.
Qed.

Lemma flat_map_expand_names df (names : list string) :
  flat_map (expand df) (map Col names) = map Col names.
Proof.
  induction names as [|n r IH]; simpl; [reflexivity | now rewrite IH].
Qed.

Lemma check_unique_ok (cols : list (Series F)) :
  NoDup (columns cols) -> check_unique cols = Ok tt.
Proof.
  intros H. unfold check_unique.
  apply first_duplicate_NoDup in H. unfold columns in H. now rewrite H.
Qed.

Lemma check_heights_ok h (cols : list (Series F)) :
  Forall (fun s => len (values s) = h) cols -> check_heights h cols = Ok tt.
Proof.
  intros H. unfold check_heights.
  replace (forallb _ cols) with true; [reflexivity |].
  symmetry. apply forallb_forall. rewrite Forall_forall in H.
  intros s Hs. apply Nat.eqb_eq. now apply H.
Qed.

Lemma height_Forall h (cols : list (Series F)) :
  Forall (fun s => len (values s) = h) cols -> cols <> [] -> height cols = h.
Proof.
  destruct cols as [|c r]; [congruence |].
  intros H _. now inversion H.
Qed.

Lemma wf_frame_NoDup df : wf_frame df = true -> NoDup (columns df).
Proof.
  unfold wf_frame. destruct (first_duplicate (columns df)) eqn:E;
    [discriminate |].
  intros _. now apply first_duplicate_NoDup.
Qed.

Lemma wf_frame_heights df :
  wf_frame df = true -> Forall (fun s => len (values s) = height df) df.
Proof.
  unfold wf_frame. destruct (first_duplicate (columns df)); [discriminate |].
  intros H. apply Forall_forall. intros s Hs.
  rewrite forallb_forall in H. now apply Nat.eqb_eq, H.
Qed.

(** Selecting columns by name returns them as they are. *)
Lemma select_columns df (sub : list (Series F)) h :
  NoDup (columns df) -> incl sub df -> NoDup (columns sub) ->
  Forall (fun s => len (values s) = h) sub ->
  select df (map Col (columns sub)) = Ok sub.
Proof.
  intros Hnd Hincl Hsub Hlen. unfold select.
  rewrite flat_map_expand_names, mapM_columns by assumption. simpl.
  rewrite check_unique_ok by assumption. simpl.
  destruct sub as [|c r]; [reflexivity |].
  rewrite check_heights_ok; [reflexivity |].
  now rewrite (height_Forall h) by (assumption || discriminate).
Qed.

(** ** [with_columns]: replacing and appending *)

Lemma lookup_upsert df s n :
  lookup (upsert df s) n =
  if String.eqb (name s) n then Some s else lookup df n.
Proof.
  induction df as [|c r IH]; simpl.
  - now destruct (String.eqb (name s) n).
  - destruct (String.eqb (name c) (name s)) eqn:E; simpl.
    + apply String.eqb_eq in E. rewrite E.
      now destruct (String.eqb (name s) n).
    + rewrite IH. destruct (String.eqb (name s) n) eqn:E'; [| reflexivity].
      apply String.eqb_eq in E'. subst n. now rewrite E.
Qed.

Lemma lookup_app df (cols : list (Series F)) n :
  lookup (df ++ cols) n =
  match lookup df n with
  | Some s => Some s
  | None => lookup cols n
  end.
Proof.
  unfold lookup. induction df as [|c r IH]; simpl; [reflexivity |].
  now destruct (String.eqb (name c) n).
Qed.

Lemma lookup_fold_upsert (cols : list (Series F)) df n :
  lookup (fold_left upsert cols df) n =
  match lookup (rev cols) n with
  | Some s => Some s
  | None => lookup df n
  end.
Proof.
  revert df. induction cols as [|c r IH]; intros df; simpl; [reflexivity |].
  rewrite IH, lookup_app, lookup_upsert.
  destruct (lookup (rev r) n); [reflexivity |].
  simpl. now destruct (String.eqb (name c) n).
Qed.

Lemma lookup_fold_upsert_In (cols : list (Series F)) df s :
  NoDup (columns cols) -> In s cols ->
  lookup (fold_left upsert cols df) (name s) = Some s.
Proof.
  intros Hnd Hin. rewrite lookup_fold_upsert.
  rewrite (lookup_unique (rev cols) s).
  - reflexivity.
  - unfold columns. rewrite map_rev. now apply NoDup_rev.
  - now rewrite <- in_rev.
Qed.

Lemma Forall_upsert (P : Series F -> Prop) df s :
  Forall P df -> P s -> Forall P (upsert df s).
Proof.
  induction df as [|c r IH]; simpl; intros Hdf Hs.
  - now constructor.
  - inversion Hdf; subst.
    destruct (String.eqb (name c) (name s)); constructor; auto.
Qed.

Lemma Forall_fold_upsert (P : Series F -> Prop) (cols : list (Series F)) df :
  Forall P df -> Forall P cols -> Forall P (fold_left upsert cols df).
Proof.
  revert df. induction cols as [|c r IH]; intros df Hdf Hcols; simpl.
  - assumption.
  - inversion Hcols; subst. apply IH; [| assumption].
    now apply Forall_upsert.
Qed.

Lemma fold_upsert_nonempty (cols : list (Series F)) df :
  df <> [] -> fold_left upsert cols df <> [].
Proof.
  revert df. induction cols as [|c r IH]; intros df H; simpl; [assumption |].
  apply IH. destruct df as [|x y]; [congruence |].
  simpl. destruct (String.eqb (name x) (name c)); discriminate.
Qed.

(** ** Column kernels *)

Lemma broadcast2_same_length {A B C} (f : A -> B -> C) xs ys :
  length xs = length ys -> broadcast2 f xs ys = Ok (zip_with f xs ys).
Proof.
  intros H. unfold broadcast2.
  destruct xs as [|x [|x' xs]]; destruct ys as [|y [|y' ys]];
    try discriminate; try reflexivity.
  now rewrite H, Nat.eqb_refl.
Qed.

Lemma broadcast2_scalar_r {A B C} (f : A -> B -> C) xs y :
  broadcast2 f xs [y] = Ok (map (fun x => f x y) xs).
Proof. now destruct xs as [|x [|x' xs]]. Qed.

Lemma broadcast2_scalar_l {A B C} (f : A -> B -> C) x ys :
  broadcast2 f [x] ys = Ok (map (f x) ys).
Proof. reflexivity. Qed.

Lemma length_zip_with {A B C} (f : A -> B -> C) xs ys :
  length xs = length ys -> length (zip_with f xs ys) = length xs.
Proof.
  revert ys. induction xs as [|x r IH]; intros [|y ys]; simpl;
    try discriminate; auto.
Qed.

Lemma nth_error_zip_with {A B C} (f : A -> B -> C) xs ys t :
  length xs = length ys ->
  nth_error (zip_with f xs ys) t =
  match nth_error xs t, nth_error ys t with
  | Some a, Some b => Some (f a b)
  | _, _ => None
  end.
Proof.
  revert ys t. induction xs as [|x r IH]; intros [|y ys] [|t]; simpl;
    try discriminate; auto.
Qed.

Lemma shift_list_cons {A} (x : option A) r :
  shift_list 1 (x :: r) = None :: firstn (length r) (x :: r).
Proof. reflexivity. Qed.

Lemma length_shift_list {A} (k : nat) (xs : list (option A)) :
  length (shift_list k xs) = length xs.
Proof.
  unfold shift_list. rewrite length_firstn, length_app. lia.
Qed.

Lemma nth_error_shift_list {A} (xs : list (option A)) t :
  S t < length xs -> nth_error (shift_list 1 xs) (S t) = nth_error xs t.
Proof.
  destruct xs as [|x r]; [simpl; lia |]. intros H. simpl in H.
  rewrite shift_list_cons. cbn [nth_error].
  rewrite nth_error_firstn.
  destruct (Nat.ltb_spec t (length r)); [reflexivity | lia].
Qed.

Lemma length_cum_scan f st (xs : list (option F)) :
  length (cum_scan f st xs) = length xs.
Proof.
  revert st. induction xs as [|[v|] r IH]; intros st; simpl; auto.
Qed.

Lemma length_return_column (close : list (option F)) :
  length (return_column close) = length close.
Proof.
  unfold return_column.
  rewrite length_map, length_zip_with; [reflexivity |].
  now rewrite length_shift_list.
Qed.

Lemma return_column_spec (close : list (option F)) t :
  t < length close ->
  nth_error (return_column close) t = spec_simple_return close t.
Proof.
  intros Ht. unfold return_column.
  rewrite nth_error_map, nth_error_zip_with
    by (now rewrite length_shift_list).
  destruct t as [|p].
  - destruct close as [|c r]; simpl in *; [lia |].
    now destruct c.
  - rewrite nth_error_shift_list by assumption.
    unfold spec_simple_return.
    destruct (nth_error close (S p)) eqn:E1.
    + destruct (nth_error close p) eqn:E2; [reflexivity |].
      apply nth_error_None in E2. lia.
    + apply nth_error_None in E1. lia.
Qed.

(** ** Cumulative kernels against the running fold *)

Lemma nth_error_cum_scan f st (xs : list (option F)) t :
  nth_error (cum_scan f st xs) t =
  match nth_error xs t with
  | Some (Some _) => Some (scan_state f st (non_null (firstn (S t) xs)))
  | Some None => Some None
  | None => None
  end.
Proof.
  revert st t. induction xs as [|[v|] r IH]; intros st t.
  - now destruct t.
  - destruct t as [|t].
    + simpl. now destruct st.
    + cbn [cum_scan nth_error]. rewrite IH.
      destruct (nth_error r t) as [[w|]|]; try reflexivity.
      now destruct st.
  - destruct t as [|t]; [reflexivity |].
    cbn [cum_scan nth_error]. now rewrite IH.
Qed.

Lemma non_null_map_lift2 (f : F -> F -> F) c (l : list (option F)) :
  non_null (map (lift2 f (Some c)) l) = map (f c) (non_null l).
Proof.
  induction l as [|[v|] r IH]; simpl; [reflexivity | |]; now rewrite IH.
Qed.

Lemma cumulative_column_spec (returns : list (option F)) t :
  nth_error (cumulative_column returns) t = spec_running_product returns t.
Proof.
  unfold cumulative_column, spec_running_product.
  rewrite nth_error_cum_scan, nth_error_map, firstn_map, non_null_map_lift2.
  now destruct (nth_error returns t) as [[v|]|].
Qed.

Lemma length_cumulative_column (returns : list (option F)) :
  length (cumulative_column returns) = length returns.
Proof.
  unfold cumulative_column. now rewrite length_cum_scan, length_map.
Qed.


Lemma length_drawdown_column (cumulative : list (option F)) :
  length (drawdown_column cumulative) = length cumulative.
Proof.
  unfold drawdown_column.
  rewrite length_map, length_zip_with; [reflexivity |].
  now rewrite length_cum_scan.
Qed.

(** ** [simple_returns] *)

Lemma numeric_columns_floats data :
  numeric_columns data = columns (List.filter is_float64 data).
Proof.
  unfold numeric_columns, columns, dtypes.
  induction data as [|c r IH]; simpl; [reflexivity |].
  unfold is_float64 at 1.
  destruct (DataType_eqb (dtype (values c)) Float64); simpl;
    now rewrite IH.
Qed.

Lemma float_column_lookup df n xs :
  float_column df n = Some xs ->
  lookup df n = Some (mk_series n (Float64_values xs)).
Proof.
  unfold float_column. destruct (lookup df n) as [s|] eqn:E; [| discriminate].
  apply lookup_name in E as Hn. destruct s as [m v]; simpl in *.
  destruct v; try discriminate. intros [= ->]. now subst.
Qed.

Lemma lookup_float_column df n xs :
  lookup df n = Some (mk_series n (Float64_values xs)) ->
  float_column df n = Some xs.
Proof. unfold float_column. now intros ->. Qed.

Lemma price_table_inv data :
  price_table data = true ->
  wf_frame data = true /\
  (exists dates, lookup data DATE = Some dates) /\
  (exists close, float_column data CLOSE = Some close) /\
  ~ In RETURN (columns (List.filter is_float64 data)).
Proof.
  unfold price_table. rewrite !andb_true_iff.
  intros [[[Hwf Hd] Hc] Hr]. split; [assumption |].
  split; [destruct (lookup data DATE) as [x|]; [now exists x | discriminate] |].
  split; [destruct (float_column data CLOSE) as [x|];
          [now exists x | discriminate] |].
  rewrite <- numeric_columns_floats. intros Hin.
  apply existsb_eqb_In in Hin. rewrite Hin in Hr. discriminate.
Qed.

Lemma eval_return_expr df close :
  float_column df CLOSE = Some close ->
  eval df (Sub (TrueDiv (Col CLOSE) (Shift (Col CLOSE) 1)) (LitInt 1))
  = Ok (Float64_values (return_column close)).
Proof.
  intros H. apply float_column_lookup in H.
  cbn [eval]. unfold get_column. rewrite H. cbn.
  rewrite broadcast2_same_length by (now rewrite length_shift_list).
  cbn. now rewrite broadcast2_scalar_r.
Qed.

Lemma simple_returns_ok data dates close :
  wf_frame data = true ->
  lookup data DATE = Some dates ->
  float_column data CLOSE = Some close ->
  ~ In RETURN (columns (List.filter is_float64 data)) ->
  simple_returns data = Ok (simple_returns_frame data dates close).
Proof.
  intros Hwf Hd Hc Hr.
  pose proof (wf_frame_NoDup _ Hwf) as Hnd.
  pose proof (wf_frame_heights _ Hwf) as Hlen.
  set (fl := List.filter is_float64 data).
  assert (Hfl_nd : NoDup (columns fl)) by now apply NoDup_columns_filter.
  assert (Hfl_incl : incl fl data)
    by (intros x Hx; now apply filter_In in Hx).
  assert (Hfl_len : Forall (fun s => len (values s) = height data) fl).
  { apply Forall_forall. intros x Hx. rewrite Forall_forall in Hlen.
    apply Hlen, Hfl_incl, Hx. }
  assert (Hclose : In (mk_series CLOSE (Float64_values close)) fl).
  { apply filter_In. split; [| reflexivity].
    eapply lookup_In, float_column_lookup, Hc. }
  assert (Hfc : float_column fl CLOSE = Some close).
  { apply lookup_float_column.
    now apply (lookup_unique fl (mk_series CLOSE (Float64_values close))). }
  assert (Hclen : length close = height data).
  { rewrite Forall_forall in Hfl_len. now apply Hfl_len in Hclose. }
  set (ret := mk_series RETURN (Float64_values (return_column close))).
  assert (Hall_nd : NoDup (columns (fl ++ [ret]))).
  { unfold columns. rewrite map_app. apply NoDup_app.
    - assumption.
    - simpl. constructor; [simpl; tauto | constructor].
    - intros a Ha [<- | []]. now apply Hr. }
  assert (Hall_len :
            Forall (fun s => len (values s) = height data) (fl ++ [ret])).
  { apply Forall_app. split; [assumption |].
    constructor; [| constructor].
    simpl. now rewrite length_return_column. }
  assert (Hdates : len (values dates) = height data).
  { rewrite Forall_forall in Hlen. eapply Hlen, lookup_In, Hd. }
  unfold simple_returns.
  rewrite numeric_columns_floats. fold fl.
  rewrite (select_columns data fl (height data)) by assumption.
  cbn [bind].
  (* the Float64 columns and the new column *)
  assert (Hsel : select fl
                   [Star; Alias (Sub (TrueDiv (Col CLOSE) (Shift (Col CLOSE) 1))
                                     (LitInt 1)) RETURN]
                 = Ok (fl ++ [ret])).
  { unfold select. cbn [flat_map expand]. rewrite app_nil_r, mapM_app.
    rewrite mapM_columns by (assumption || apply incl_refl).
    cbn [bind mapM]. rewrite eval_named_Alias.
    rewrite (eval_return_expr fl close Hfc). cbn [bind]. fold ret.
    rewrite check_unique_ok by assumption. cbn [bind].
    rewrite check_heights_ok; [reflexivity |].
    rewrite (height_Forall (height data)); [assumption | assumption |].
    now destruct fl. }
  rewrite Hsel. cbn [bind].
  (* the date column *)
  apply lookup_name in Hd as Hdn.
  assert (Hseld : select data [Col DATE] = Ok [dates]).
  { rewrite <- Hdn.
    apply (select_columns data [dates] (height data)).
    - assumption.
    - intros x [<- | []]. eapply lookup_In, Hd.
    - simpl. constructor; [simpl; tauto | constructor].
    - now constructor. }
  rewrite Hseld. cbn [bind].
  unfold with_columns_frame, with_series.
  rewrite check_unique_ok by assumption. cbn [bind height].
  rewrite Hdates, check_heights_ok by assumption.
  reflexivity.
Qed.

Section SimpleReturnsFrame.

Variables (data : DataFrame F) (dates : Series F) (close : list (option F)).
Hypothesis Hwf : wf_frame data = true.
Hypothesis Hdates : lookup data DATE = Some dates.
Hypothesis Hclose : float_column data CLOSE = Some close.
Hypothesis Hfree : ~ In RETURN (columns (List.filter is_float64 data)).

Lemma new_columns_NoDup :
  NoDup (columns (List.filter is_float64 data ++ [return_series_of close])).
Proof.
  unfold columns. rewrite map_app. apply NoDup_app.
  - apply NoDup_columns_filter, wf_frame_NoDup, Hwf.
  - simpl. constructor; [simpl; tauto | constructor].
  - intros a Ha [<- | []]. now apply Hfree.
Qed.

Lemma frame_return_column :
  float_column (simple_returns_frame data dates close) RETURN
  = Some (return_column close).
Proof.
  apply lookup_float_column.
  apply (lookup_fold_upsert_In _ [dates] (return_series_of close)
           new_columns_NoDup).
  apply in_or_app. right. now left.
Qed.

Lemma frame_float_column s :
  In s data -> is_float64 s = true ->
  lookup (simple_returns_frame data dates close) (name s) = Some s.
Proof.
  intros Hin Hf.
  apply (lookup_fold_upsert_In _ [dates] s new_columns_NoDup).
  apply in_or_app. left. apply filter_In. now split.
Qed.

Lemma frame_date_column :
  lookup (simple_returns_frame data dates close) DATE = Some dates.
Proof.
  unfold simple_returns_frame. rewrite lookup_fold_upsert.
  destruct (lookup (rev _) DATE) as [s|] eqn:E.
  - apply lookup_name in E as Hn. apply lookup_In in E.
    rewrite <- in_rev in E. apply in_app_or in E.
    destruct E as [E | [<- | []]]; [| discriminate].
    apply filter_In in E. destruct E as [E _].
    apply (lookup_unique data s (wf_frame_NoDup _ Hwf)) in E.
    rewrite Hn in E. congruence.
  - apply lookup_name in Hdates as Hn. simpl. rewrite Hn.
    now rewrite String.eqb_refl.
Qed.

Lemma frame_heights :
  Forall (fun s => len (values s) = height data)
    (simple_returns_frame data dates close).
Proof.
  pose proof (wf_frame_heights _ Hwf) as Hlen.
  rewrite Forall_forall in Hlen.
  apply Forall_fold_upsert.
  - constructor; [| constructor]. eapply Hlen, lookup_In, Hdates.
  - apply Forall_app. split.
    + apply Forall_forall. intros x Hx. apply filter_In in Hx.
      now apply Hlen.
    + constructor; [| constructor]. simpl. rewrite length_return_column.
      apply float_column_lookup, lookup_In in Hclose.
      now apply Hlen in Hclose.
Qed.

Lemma frame_height :
  height (simple_returns_frame data dates close) = height data.
Proof.
  apply height_Forall; [apply frame_heights |].
  apply fold_upsert_nonempty. discriminate.
Qed.

Lemma frame_return_series :
  return_series (simple_returns_frame data dates close) = true.
Proof.
  unfold return_series.
  rewrite frame_date_column, frame_return_column.
  pose proof frame_heights as H. rewrite Forall_forall in H.
  pose proof (lookup_In _ _ _ frame_date_column) as Hd.
  pose proof (lookup_In _ _ _ (float_column_lookup _ _ _ frame_return_column))
    as Hr.
  apply H in Hd. apply H in Hr. simpl in Hr.
  apply Nat.eqb_eq. congruence.
Qed.

End SimpleReturnsFrame.

(** C1 (amended).  On a price table whose close column is Float64,
    [simple_returns] returns a frame of the height of the input whose column
    [return] is null on the first row and [close[t] / close[t-1] - 1] on
    every later row (null where one of the two prices is null). *)
Theorem simple_returns_spec data close :
  price_table data = true ->
  float_column data CLOSE = Some close ->
  exists out returns,
    simple_returns data = Ok out /\
    height out = height data /\
    float_column out RETURN = Some returns /\
    length returns = height data /\
    (0 < height data -> nth_error returns 0 = Some None) /\
    (forall t now before,
        nth_error close (S t) = Some now ->
        nth_error close t = Some before ->
        nth_error returns (S t)
        = Some (lift2 fsub (lift2 fdiv now before) (Some (of_int 1)))).
Proof.
  intros Hpt Hc.
  destruct (price_table_inv _ Hpt) as (Hwf & [dates Hd] & _ & Hr).
  assert (Hlen : length close = height data).
  { pose proof (wf_frame_heights _ Hwf) as Hl. rewrite Forall_forall in Hl.
    apply float_column_lookup, lookup_In in Hc. now apply Hl in Hc. }
  exists (simple_returns_frame data dates close), (return_column close).
  split; [now apply simple_returns_ok |].
  split; [now apply frame_height |].
  split; [now apply frame_return_column |].
  split; [now rewrite length_return_column |].
  split.
  - intros Hpos. rewrite return_column_spec by lia.
    destruct close; [simpl in *; lia | reflexivity].
  - intros t now before Hn Hb.
    rewrite return_column_spec
      by (apply nth_error_Some; congruence).
    unfold spec_simple_return. now rewrite Hn, Hb.
Qed.

(** C10.  On a price table, the frame returned by [simple_returns] has the
    columns [date] and [return] and every Float64 column of the input, each
    with exactly the values it has in the input. *)
Theorem simple_returns_keeps_float_columns data :
  price_table data = true ->
  exists out,
    simple_returns data = Ok out /\
    lookup out DATE = lookup data DATE /\
    lookup out DATE <> None /\
    float_column out RETURN <> None /\
    float_column out CLOSE = float_column data CLOSE /\
    forall s, In s data -> dtype (values s) = Float64 ->
              lookup out (name s) = Some s.
Proof.
  intros Hpt.
  destruct (price_table_inv _ Hpt) as (Hwf & [dates Hd] & [close Hc] & Hr).
  exists (simple_returns_frame data dates close).
  split; [now apply simple_returns_ok |].
  rewrite (frame_date_column data dates close Hwf Hd).
  split; [now rewrite Hd |].
  split; [discriminate |].
  split; [now rewrite frame_return_column |].
  assert (Hkeep : forall s, In s data -> dtype (values s) = Float64 ->
                            lookup (simple_returns_frame data dates close)
                              (name s) = Some s).
  { intros s Hin Hty. apply frame_float_column; try assumption.
    unfold is_float64. now rewrite Hty. }
  split; [| exact Hkeep].
  rewrite Hc. apply lookup_float_column.
  apply float_column_lookup, lookup_In in Hc.
  now apply (Hkeep _ Hc).
Qed.

(** C7.  On a price table, [aggregate_returns] raises the [ValueError] of
    its last branch (the unsupported-aggregation error) for every period
    other than monthly and yearly: day, weekly and quarterly. *)
Theorem aggregate_returns_unsupported data convert_to :
  price_table data = true ->
  convert_to <> MONTHLY -> convert_to <> YEARLY ->
  aggregate_returns data convert_to
  = Err (ValueError (not_supported convert_to)).
Proof.
  intros Hpt Hm Hy.
  destruct (price_table_inv _ Hpt) as (Hwf & [dates Hd] & [close Hc] & Hr).
  unfold aggregate_returns.
  rewrite (simple_returns_ok data dates close) by assumption.
  cbn [bind]. destruct convert_to; congruence.
Qed.

(** ** [cumulative_returns] *)

Lemma return_series_inv df :
  return_series df = true ->
  exists dates returns,
    lookup df DATE = Some dates /\
    float_column df RETURN = Some returns /\
    len (values dates) = length returns.
Proof.
  unfold return_series.
  destruct (lookup df DATE) as [dates|]; [| discriminate].
  destruct (float_column df RETURN) as [returns|]; [| discriminate].
  intros H. apply Nat.eqb_eq in H. now exists dates, returns.
Qed.

Lemma eval_named_lookup df n s :
  lookup df n = Some s -> eval_named df (Col n) = Ok s.
Proof.
  intros H. apply lookup_name in H as Hn. subst n.
  now apply eval_named_Col.
Qed.

Lemma eval_cumulative_expr df returns :
  float_column df RETURN = Some returns ->
  eval df (CumProd (Add (LitInt 1) (Col RETURN)))
  = Ok (Float64_values (cumulative_column returns)).
Proof.
  intros H. apply float_column_lookup in H.
  cbn [eval]. unfold get_column. now rewrite H.
Qed.

Lemma cumulative_returns_ok df dates returns :
  lookup df DATE = Some dates ->
  float_column df RETURN = Some returns ->
  len (values dates) = length returns ->
  cumulative_returns df = Ok (cumulative_returns_frame dates returns).
Proof.
  intros Hd Hr Hlen.
  unfold cumulative_returns, select.
  cbn [flat_map expand app mapM].
  rewrite eval_named_Alias, (eval_cumulative_expr _ _ Hr).
  rewrite (eval_named_lookup _ _ _ Hd).
  rewrite (eval_named_lookup _ _ _ (float_column_lookup _ _ _ Hr)).
  cbn [bind]. fold (cumulative_returns_frame dates returns).
  rewrite check_unique_ok
    by (apply lookup_name in Hd; unfold columns; simpl; rewrite Hd;
        apply first_duplicate_NoDup; reflexivity).
  cbn [bind]. rewrite check_heights_ok; [reflexivity |].
  unfold cumulative_returns_frame. simpl height.
  repeat constructor; simpl; [congruence |].
  rewrite length_cumulative_column. congruence.
Qed.

(** C2.  On a return series, [cumulative_returns] returns the columns
    [date] and [return] as they are, rows in the same order, and a column
    [cumulative_return] of the same length whose row [t] is the product of
    [1 + return] over the rows up to [t] (a row whose return is null is left
    out of the product and is itself null). *)
Theorem cumulative_returns_spec df returns :
  return_series df = true ->
  float_column df RETURN = Some returns ->
  exists out cumulative,
    cumulative_returns df = Ok out /\
    columns out = [DATE; RETURN; CUMULATIVE_RETURN] /\
    lookup out DATE = lookup df DATE /\
    float_column out RETURN = Some returns /\
    float_column out CUMULATIVE_RETURN = Some cumulative /\
    height out = length returns /\
    length cumulative = length returns /\
    forall t,
      nth_error cumulative t = spec_running_product returns t.
Proof.
  intros Hrs Hr.
  destruct (return_series_inv _ Hrs) as (dates & returns' & Hd & Hr' & Hlen).
  assert (returns' = returns) by congruence. subst returns'.
  exists (cumulative_returns_frame dates returns), (cumulative_column returns).
  apply lookup_name in Hd as Hn.
  split; [now apply cumulative_returns_ok |].
  split; [simpl; now rewrite Hn |].
  split; [rewrite Hd; simpl; now rewrite Hn |].
  split; [unfold float_column; simpl; now rewrite Hn |].
  split; [unfold float_column; simpl; now rewrite Hn |].
  split; [assumption |].
  split; [apply length_cumulative_column |].
  apply cumulative_column_spec.
Qed.

(** ** [max_drawdown] *)

Lemma upsert_fresh df s :
  lookup df (name s) = None -> upsert df s = df ++ [s].
Proof.
  induction df as [|c r IH]; simpl; [reflexivity |].
  destruct (String.eqb (name c) (name s)); [discriminate |].
  intros H. now rewrite IH.
Qed.

Lemma with_columns_append df (e : Expr F) n v :
  eval df e = Ok v ->
  lookup df n = None ->
  df <> [] ->
  len v = height df ->
  with_columns df [Alias e n] = Ok (df ++ [mk_series n v]).
Proof.
  intros He Hn Hdf Hlen.
  unfold with_columns. cbn [flat_map expand app mapM].
  rewrite eval_named_Alias, He. cbn [bind].
  unfold with_series. rewrite check_unique_ok
    by (simpl; constructor; [simpl; tauto | constructor]).
  cbn [bind]. destruct df as [|c r]; [congruence |].
  rewrite check_heights_ok by (now repeat constructor).
  cbn [bind fold_left]. now rewrite upsert_fresh.
Qed.

Lemma select_aggregate df (e : Expr F) n v :
  eval df e = Ok v -> select df [Alias e n] = Ok [mk_series n v].
Proof.
  intros He. unfold select. cbn [flat_map expand app mapM].
  rewrite eval_named_Alias, He. cbn [bind].
  unfold check_unique, check_heights. simpl.
  now rewrite Nat.eqb_refl.
Qed.

Lemma eval_drawdown_expr df cumulative running :
  float_column df "cumulative_return" = Some cumulative ->
  float_column df "max_return" = Some running ->
  length cumulative = length running ->
  eval df (Sub (TrueDiv (Col "cumulative_return") (Col "max_return"))
               (LitInt 1))
  = Ok (Float64_values
          (map (fun q => lift2 fsub q (Some (of_int 1)))
             (zip_with (lift2 fdiv) cumulative running))).
Proof.
  intros Hc Hm Hlen.
  apply float_column_lookup in Hc. apply float_column_lookup in Hm.
  cbn [eval]. unfold get_column. rewrite Hc, Hm. cbn.
  rewrite broadcast2_same_length by assumption.
  cbn. now rewrite broadcast2_scalar_r.
Qed.

Lemma eval_cum_max_expr df cumulative :
  float_column df "cumulative_return" = Some cumulative ->
  eval df (CumMax (Col "cumulative_return"))
  = Ok (Float64_values (cum_scan fmax None cumulative)).
Proof.
  intros Hc. apply float_column_lookup in Hc.
  cbn [eval]. unfold get_column. now rewrite Hc.
Qed.

Lemma eval_max_expr df drawdown :
  float_column df "drawdown" = Some drawdown ->
  eval df (Max (Col "drawdown")) = Ok (Float64_values [agg_max drawdown]).
Proof.
  intros Hc. apply float_column_lookup in Hc.
  cbn [eval]. unfold get_column. now rewrite Hc.
Qed.

Lemma max_drawdown_ok df dates returns :
  lookup df DATE = Some dates ->
  float_column df RETURN = Some returns ->
  len (values dates) = length returns ->
  max_drawdown df
  = Ok (opt_py PyFloat
          (agg_max (drawdown_column (cumulative_column returns)))).
Proof.
  intros Hd Hr Hlen. unfold max_drawdown.
  rewrite (cumulative_returns_ok df dates returns) by assumption.
  cbn [bind]. apply lookup_name in Hd as Hn.
  destruct dates as [dn dv]. simpl in Hn, Hlen. subst dn.
  set (cum := cumulative_column returns).
  set (cf := cumulative_returns_frame _ returns).
  rewrite (with_columns_append cf _ "max_return"
             (Float64_values (cum_scan fmax None cum))).
  2: now apply eval_cum_max_expr.
  2: reflexivity.
  2: discriminate.
  2: { simpl. unfold cum.
       rewrite length_cum_scan, length_cumulative_column. congruence. }
  cbn [bind].
  rewrite (with_columns_append _ _ "drawdown"
             (Float64_values (drawdown_column cum))).
  2: { apply eval_drawdown_expr; [reflexivity | reflexivity |].
       now rewrite length_cum_scan. }
  2: reflexivity.
  2: discriminate.
  2: { simpl. unfold cum.
       rewrite length_drawdown_column, length_cumulative_column.
       congruence. }
  cbn [bind].
  rewrite (select_aggregate _ _ "max_drawdown"
             (Float64_values [agg_max (drawdown_column cum)]))
    by (now apply eval_max_expr).
  reflexivity.
Qed.


(** ** [annual_volatility] and [omega_ratio] *)

Lemma non_null_filter_excess (returns : list (option F)) rf :
  non_null
    (filter_list (map (fun x => lift2 fsub x (Some rf)) returns)
                 (map (fun x => lift2 fltb x (Some rf)) returns))
  = map (fun r => fsub r rf)
      (List.filter (fun r => fltb r rf) (non_null returns)).
Proof.
  induction returns as [|[v|] r IH]; simpl; [reflexivity | | assumption].
  destruct (fltb v rf); simpl; [now rewrite IH | assumption].
Qed.

Lemma eval_downside_expr df returns rf :
  float_column df RETURN = Some returns ->
  eval df (Sum (Filter (Sub (Col RETURN) (LitFloat rf))
                       (Less (Col RETURN) (LitFloat rf))))
  = Ok (Float64_values
          [Some (spec_excess_sum (fun r => fltb r rf) returns rf)]).
Proof.
  intros H. apply float_column_lookup in H.
  cbn [eval]. unfold get_column. rewrite H. cbn.
  rewrite !broadcast2_scalar_r. cbn.
  rewrite !length_map, Nat.eqb_refl. cbn.
  unfold agg_sum. now rewrite non_null_filter_excess.
Qed.

Lemma eval_std_expr df returns :
  float_column df RETURN = Some returns ->
  eval df (Std (Col RETURN)) = Ok (Float64_values [agg_std returns]).
Proof.
  intros H. apply float_column_lookup in H.
  cbn [eval]. unfold get_column. now rewrite H.
Qed.

Lemma annualization_faactor_nonzero period :
  (annualization_faactor period =? 0)%Z = false.
Proof. now destruct period. Qed.

Lemma annual_volatility_ok df returns period :
  float_column df RETURN = Some returns ->
  annual_volatility df period
  = py_mul (opt_py PyFloat (agg_std returns))
           (math_sqrt (annualization_faactor period)).
Proof.
  intros H. unfold annual_volatility.
  now rewrite (select_aggregate _ _ _ _ (eval_std_expr _ _ H)).
Qed.

Lemma omega_ratio_ok df returns rf period :
  float_column df RETURN = Some returns ->
  omega_ratio df rf period
  = (volatility <- annual_volatility df period ;;
     py_truediv
       (PyFloat (fdiv (spec_excess_sum (fun r => fltb r rf) returns rf)
                      (of_int (annualization_faactor period))))
       volatility).
Proof.
  intros H. unfold omega_ratio.
  rewrite (select_aggregate _ _ _ _ (eval_downside_expr _ _ rf H)).
  cbn. now rewrite annualization_faactor_nonzero.
Qed.

(** ** The methods that always raise *)

Lemma lookup_not_In df n : ~ In n (columns df) -> lookup df n = None.
Proof.
  intros H. destruct (lookup df n) as [s|] eqn:E; [| reflexivity].
  exfalso. apply H. apply lookup_name in E as Hn. apply lookup_In in E.
  subst n. now apply in_map.
Qed.

(** [sharpe_ratio] asks for a column [simple_return]; the frame of
    [simple_returns] names it [return]. *)
Lemma sharpe_ratio_raises data rs_frame rf period :
  price_table data = true ->
  ~ In "simple_return" (numeric_columns data) ->
  simple_returns data = Ok rs_frame ->
  sharpe_ratio rs_frame rf period
  = Err (ColumnNotFoundError "simple_return").
Proof.
  intros Hpt Hno Hsr.
  destruct (price_table_inv _ Hpt) as (Hwf & [dates Hd] & [close Hc] & Hr).
  rewrite (simple_returns_ok data dates close) in Hsr by assumption.
  injection Hsr as <-.
  assert (Hl : lookup (simple_returns_frame data dates close) "simple_return"
               = None).
  { unfold simple_returns_frame. rewrite lookup_fold_upsert.
    rewrite lookup_not_In.
    - apply lookup_name in Hd. simpl. now rewrite Hd.
    - unfold columns. rewrite map_rev, <- in_rev, map_app, in_app_iff.
      rewrite numeric_columns_floats in Hno.
      intros [H | [H | []]]; [now apply Hno | discriminate]. }
  unfold sharpe_ratio, select. cbn [flat_map expand app mapM].
  rewrite eval_named_Alias. cbn [eval]. unfold get_column.
  now rewrite Hl.
Qed.

(** [cumulative_return_final] names its result [cumulative_return_final]
    and then reads the column [cumulative_return] of that result. *)
Lemma cumulative_return_final_raises df :
  exists e, cumulative_return_final df = Err e.
Proof.
  unfold cumulative_return_final, select.
  cbn [flat_map expand app mapM]. rewrite eval_named_Alias.
  destruct (eval df _) as [v|e]; cbn [bind]; [| now exists e].
  unfold check_unique, check_heights. simpl. rewrite Nat.eqb_refl.
  simpl. now eexists.
Qed.

Lemma cumulative_return_final_column df cumulative :
  float_column df CUMULATIVE_RETURN = Some cumulative ->
  cumulative_return_final df = Err (ColumnNotFoundError CUMULATIVE_RETURN).
Proof.
  intros H. apply float_column_lookup in H.
  unfold cumulative_return_final.
  rewrite (select_aggregate df _ _
             (Float64_values
                [agg_product (map (lift2 fadd (Some (of_int 1))) cumulative)])).
  - reflexivity.
  - cbn [eval]. unfold get_column. now rewrite H.
Qed.

(** [compound_annual_growth_rate] reads [count().item()], which needs a
    frame of one column, and then [cumulative_returns], which needs two. *)
Lemma compound_annual_growth_rate_raises pow df period :
  exists e, compound_annual_growth_rate pow df period = Err e.
Proof.
  unfold compound_annual_growth_rate.
  destruct df as [|s [|s' r]].
  - now eexists.
  - assert (Hc : exists e, cumulative_returns [s] = Err e).
    { unfold cumulative_returns, select. cbn [flat_map expand app mapM].
      unfold eval_named at 1 2. cbn [eval]. unfold get_column, lookup.
      cbn [find].
      destruct (String.eqb (name s) DATE) eqn:E1; cbn [bind];
        [| now eexists].
      apply String.eqb_eq in E1.
      replace (String.eqb (name s) RETURN) with false
        by (now rewrite E1).
      cbn [bind]. now eexists. }
    destruct Hc as [e He].
    assert (Hi : exists z, item (count [s]) = Ok (PyInt z)).
    { unfold count, item. cbn. now eexists. }
    destruct Hi as [z Hz]. rewrite Hz. cbn [bind py_truediv].
    rewrite annualization_faactor_nonzero. cbn [bind].
    rewrite He. now exists e.
  - now eexists.
Qed.

(** ** Which rows are null *)

Lemma non_null_cum_scan_length f st (xs : list (option F)) :
  length (non_null (cum_scan f st xs)) = length (non_null xs).
Proof.
  revert st. induction xs as [|[v|] r IH]; intros st; simpl; auto.
Qed.

Lemma non_null_drawdown_length st (cumulative : list (option F)) :
  length
    (non_null
       (map (fun q => lift2 fsub q (Some (of_int 1)))
          (zip_with (lift2 fdiv) cumulative (cum_scan fmax st cumulative))))
  = length (non_null cumulative).
Proof.
  revert st. induction cumulative as [|[v|] r IH]; intros st; simpl; auto.
Qed.

Lemma non_null_drawdown_of_returns (returns : list (option F)) :
  length (non_null (drawdown_column (cumulative_column returns)))
  = length (non_null returns).
Proof.
  unfold drawdown_column. rewrite non_null_drawdown_length.
  unfold cumulative_column.
  now rewrite non_null_cum_scan_length, non_null_map_lift2, length_map.
Qed.

(** ** A constant price *)

Lemma firstn_repeat_S {A} (a : A) k : firstn k (repeat a (S k)) = repeat a k.
Proof. induction k as [|k IH]; simpl; [reflexivity | now f_equal]. Qed.

Lemma zip_with_repeat {A B C} (f : A -> B -> C) a b k :
  zip_with f (repeat a k) (repeat b k) = repeat (f a b) k.
Proof. induction k as [|k IH]; simpl; [reflexivity | now f_equal]. Qed.

Lemma cum_scan_repeat (f : F -> F -> F) x st k :
  (st = None \/ st = Some x) -> f x x = x ->
  cum_scan f st (repeat (Some x) k) = repeat (Some x) k.
Proof.
  intros Hst Hf. revert st Hst.
  induction k as [|k IH]; intros st Hst; simpl; [reflexivity |].
  assert (Hs : match st with Some s => f s x | None => x end = x)
    by (destruct Hst as [-> | ->]; auto).
  rewrite Hs, IH; auto.
Qed.

Lemma fmax_same (x : F) : fmax x x = x.
Proof. unfold fmax. now destruct (fltb x x). Qed.

Section ConstantPrice.

(** The price [c] and the five facts of arithmetic the computation goes
    through: they hold in exact arithmetic for every [c <> 0], and in
    binary64 for every finite [c <> 0]. *)
Variable c : F.
Hypothesis div_same : fdiv c c = of_int 1.
Hypothesis sub_ones : fsub (of_int 1) (of_int 1) = of_int 0.
Hypothesis add_zero : fadd (of_int 1) (of_int 0) = of_int 1.
Hypothesis mul_ones : fmul (of_int 1) (of_int 1) = of_int 1.
Hypothesis div_ones : fdiv (of_int 1) (of_int 1) = of_int 1.

Lemma return_column_constant k :
  return_column (repeat (Some c) k) = after_first_row (of_int 0) k.
Proof.
  destruct k as [|k]; [reflexivity |].
  unfold return_column. cbn [repeat]. rewrite shift_list_cons.
  rewrite repeat_length.
  change (Some c :: repeat (Some c) k) with (repeat (Some c) (S k)) at 2.
  rewrite firstn_repeat_S. cbn [zip_with map lift2].
  rewrite zip_with_repeat, map_repeat. cbn [lift2].
  now rewrite div_same, sub_ones.
Qed.

Lemma cumulative_column_constant k :
  cumulative_column (after_first_row (of_int 0) k)
  = after_first_row (of_int 1) k.
Proof.
  destruct k as [|k]; [reflexivity |].
  unfold cumulative_column, after_first_row.
  cbn [map lift2 cum_scan]. rewrite map_repeat. cbn [lift2].
  rewrite add_zero. now rewrite cum_scan_repeat by auto.
Qed.

Lemma drawdown_column_constant k :
  drawdown_column (after_first_row (of_int 1) k)
  = after_first_row (of_int 0) k.
Proof.
  destruct k as [|k]; [reflexivity |].
  unfold drawdown_column, after_first_row.
  cbn [cum_scan zip_with map lift2].
  rewrite cum_scan_repeat by (auto using fmax_same).
  rewrite zip_with_repeat, map_repeat. cbn [lift2].
  now rewrite div_ones, sub_ones.
Qed.

Lemma agg_max_zeros k :
  agg_max (after_first_row (of_int 0) k)
  = if 2 <=? k then Some (of_int 0) else None.
Proof.
  destruct k as [|[|k]]; try reflexivity.
  unfold agg_max, after_first_row. simpl. f_equal.
  induction k as [|k IH]; simpl; [reflexivity |].
  now rewrite fmax_same.
Qed.

Lemma constant_prices_rows data k :
  price_table data = true ->
  float_column data CLOSE = Some (repeat (Some c) k) ->
  exists rs_frame cum_frame,
    simple_returns data = Ok rs_frame /\
    float_column rs_frame RETURN = Some (after_first_row (of_int 0) k) /\
    cumulative_returns rs_frame = Ok cum_frame /\
    float_column cum_frame CUMULATIVE_RETURN
    = Some (after_first_row (of_int 1) k) /\
    max_drawdown rs_frame
    = Ok (if 2 <=? k then PyFloat (of_int 0) else PyNone).
Proof.
  intros Hpt Hc.
  destruct (price_table_inv _ Hpt) as (Hwf & [dates Hd] & _ & Hr).
  pose proof (frame_return_column data dates (repeat (Some c) k) Hwf Hr)
    as Hret.
  rewrite return_column_constant in Hret.
  pose proof (frame_date_column data dates (repeat (Some c) k) Hwf Hd)
    as Hdate.
  pose proof (frame_return_series data dates _ Hwf Hd Hc Hr) as Hrs.
  assert (Hlen : len (values dates) = length (after_first_row (of_int 0) k)).
  { unfold return_series in Hrs. rewrite Hdate, Hret in Hrs.
    now apply Nat.eqb_eq. }
  exists (simple_returns_frame data dates (repeat (Some c) k)),
    (cumulative_returns_frame dates (after_first_row (of_int 0) k)).
  split; [now apply simple_returns_ok |].
  split; [assumption |].
  split; [now apply cumulative_returns_ok |].
  split.
  - apply lookup_name in Hd. unfold float_column. simpl. rewrite Hd.
    simpl. now rewrite cumulative_column_constant.
  - rewrite (max_drawdown_ok _ dates (after_first_row (of_int 0) k))
      by assumption.
    rewrite cumulative_column_constant, drawdown_column_constant.
    rewrite agg_max_zeros. now destruct (2 <=? k).
Qed.

End ConstantPrice.

End Frames.

(** * Exact arithmetic *)

Section Exact.

Local Open Scope Q_scope.

Implicit Types (x y c m v : Q).

Lemma fltb_lt x y : fltb x y = true <-> x < y.
Proof.
  simpl. rewrite Qlt_alt. destruct (x ?= y); split; congruence.
Qed.

Lemma fmax_ge_r x y : y <= fmax x y.
Proof.
  unfold fmax. destruct (fltb x y) eqn:E; [apply Qle_refl |].
  apply Qnot_lt_le. intros H. apply fltb_lt in H. congruence.
Qed.

Lemma fmax_cases x y : fmax x y = x \/ fmax x y = y.
Proof. unfold fmax. destruct (fltb x y); auto. Qed.

Lemma fold_fmax_nonpos (l : list Q) x :
  x <= 0 -> Forall (fun d => d <= 0) l -> fold_left fmax l x <= 0.
Proof.
  revert x. induction l as [|y r IH]; intros x Hx Hl; simpl; [assumption |].
  inversion Hl; subst. apply IH; [| assumption].
  destruct (fmax_cases x y) as [-> | ->]; assumption.
Qed.

Lemma drawdown_nonpos v m : 0 < v -> v <= m -> fsub (fdiv v m) (of_int 1) <= 0.
Proof.
  intros Hv Hm. change (Qred (Qred (v / m) - inject_Z 1) <= 0).
  rewrite !Qred_correct.
  assert (Hpos : 0 < m) by (eapply Qlt_le_trans; eassumption).
  assert (H : v / m <= 1).
  { apply Qle_shift_div_r; [assumption |]. now rewrite Qmult_1_l. }
  unfold inject_Z. lra.
Qed.

Lemma cumulative_positive st (xs : list (option Q)) :
  match st with Some s => 0 < s | None => True end ->
  Forall (fun x => 0 < x) (non_null xs) ->
  Forall (fun x => 0 < x) (non_null (cum_scan fmul st xs)).
Proof.
  revert st. induction xs as [|[v|] r IH]; intros st Hst Hxs; simpl.
  - constructor.
  - simpl in Hxs. inversion Hxs; subst.
    assert (Hs : 0 < match st with Some s => fmul s v | None => v end).
    { destruct st as [s|]; [| assumption].
      change (0 < Qred (s * v)). rewrite Qred_correct.
      now apply Qmult_lt_0_compat. }
    constructor; [assumption |]. now apply IH.
  - now apply IH.
Qed.

Lemma drawdowns_nonpos st (cumulative : list (option Q)) :
  Forall (fun x => 0 < x) (non_null cumulative) ->
  Forall (fun d => d <= 0)
    (non_null
       (map (fun q => lift2 fsub q (Some (of_int 1)))
          (zip_with (lift2 fdiv) cumulative (cum_scan fmax st cumulative)))).
Proof.
  revert st. induction cumulative as [|[v|] r IH]; intros st Hc; simpl.
  - constructor.
  - simpl in Hc. inversion Hc; subst.
    constructor; [| now apply IH].
    apply drawdown_nonpos; [assumption |].
    destruct st as [s|]; [apply fmax_ge_r | apply Qle_refl].
  - now apply IH.
Qed.


(** ** A constant price *)

Lemma Qred_div_same c : ~ c == 0 -> Qred (c / c) = 1.
Proof.
  intros Hc. change 1 with (Qred 1). apply Qred_complete. now field.
Qed.

(** C9 (amended).  On a price table whose close price is a constant
    [c > 0] on all [n] rows: the column [return] is null on the first row
    and 0 on the others, the column [cumulative_return] is null on the first
    row and 1 on the others, and [max_drawdown] returns 0 when there are at
    least two rows ([None] otherwise). *)
Theorem constant_price_metrics (data : DataFrame Q) c n :
  price_table data = true ->
  float_column data CLOSE = Some (repeat (Some c) n) ->
  0 < c ->
  exists rs_frame cum_frame,
    simple_returns data = Ok rs_frame /\
    float_column rs_frame RETURN = Some (after_first_row 0 n) /\
    cumulative_returns rs_frame = Ok cum_frame /\
    float_column cum_frame CUMULATIVE_RETURN = Some (after_first_row 1 n) /\
    max_drawdown rs_frame = Ok (if (2 <=? n)%nat then PyFloat 0 else PyNone).
Proof.
  intros Hpt Hc Hpos.
  assert (Hdiv : fdiv c c = of_int 1).
  { apply Qred_div_same. intros H. rewrite H in Hpos. discriminate. }
  exact (constant_prices_rows c Hdiv eq_refl eq_refl eq_refl eq_refl
           data n Hpt Hc).
Qed.

End Exact.

(** * Runs on concrete tables *)

Lemma simple_returns_spec_witness :
  exists out returns,
    simple_returns (F := PrimFloat.float) prices_100_90_99 = Ok out /\
    float_column out RETURN = Some returns /\
    nth_error returns 0 = Some None /\
    nth_error returns 1
    = Some (Some (fsub (fdiv (of_int 90) (of_int 100)) (of_int 1))).
Proof.
  destruct (simple_returns_spec (F := PrimFloat.float) prices_100_90_99
              [Some (of_int 100); Some (of_int 90); Some (of_int 99)]
              eq_refl eq_refl)
    as (out & returns & H1 & _ & H3 & _ & H5 & H6).
  exists out, returns.
  split; [exact H1 |]. split; [exact H3 |].
  split; [apply H5; simpl; lia |].
  exact (H6 0 (Some (of_int 90)) (Some (of_int 100)) eq_refl eq_refl).
Defined.

Lemma simple_returns_keeps_float_columns_witness :
  exists out,
    simple_returns (F := PrimFloat.float) prices_100_90_99 = Ok out /\
    float_column out "volume" = Some [Some (of_int 7); None; Some (of_int 9)].
Proof.
  destruct (simple_returns_keeps_float_columns (F := PrimFloat.float)
              prices_100_90_99 eq_refl)
    as (out & H1 & _ & _ & _ & _ & H6).
  exists out. split; [exact H1 |].
  apply lookup_float_column.
  apply (H6 (mk_series "volume"
               (Float64_values [Some (of_int 7); None; Some (of_int 9)]))).
  - simpl. tauto.
  - reflexivity.
Defined.

Lemma aggregate_returns_unsupported_witness :
  aggregate_returns (F := PrimFloat.float) prices_100_110_121 QUARTERLY
  = Err (ValueError (not_supported QUARTERLY)).
Proof.
  apply (aggregate_returns_unsupported (F := PrimFloat.float) prices_100_110_121
           QUARTERLY eq_refl);
    discriminate.
Defined.

Lemma cumulative_returns_spec_witness :
  exists out cumulative,
    cumulative_returns (F := Q) (returns_of prices_100_110_121) = Ok out /\
    float_column out CUMULATIVE_RETURN = Some cumulative /\
    nth_error cumulative 0 = Some None /\
    nth_error cumulative 2 = Some (Some (121 # 100)%Q).
Proof.
  assert (Hr : float_column (F := Q) (returns_of prices_100_110_121) RETURN
               = Some [None; Some (1 # 10)%Q; Some (1 # 10)%Q])
    by (vm_compute; reflexivity).
  destruct (cumulative_returns_spec (returns_of prices_100_110_121) _
              eq_refl Hr)
    as (out & cumulative & H1 & _ & _ & _ & H5 & _ & _ & H8).
  exists out, cumulative.
  split; [exact H1 |]. split; [exact H5 |].
  split; [exact (H8 0) | exact (H8 2)].
Defined.


Lemma constant_price_metrics_witness :
  exists rs_frame,
    simple_returns (F := Q) prices_5_5_5 = Ok rs_frame /\
    float_column rs_frame RETURN = Some [None; Some 0%Q; Some 0%Q] /\
    max_drawdown rs_frame = Ok (PyFloat 0%Q).
Proof.
  assert (Hc : float_column (F := Q) prices_5_5_5 CLOSE
               = Some (repeat (Some 5%Q) 3)) by reflexivity.
  destruct (constant_price_metrics prices_5_5_5 5%Q 3 eq_refl Hc eq_refl)
    as (rs_frame & cum_frame & H1 & H2 & _ & _ & H5).
  exists rs_frame. split; [exact H1 |]. split; [exact H2 | exact H5].
Defined.

(** The same constant price in binary64: 5.0 / 5.0 is 1.0 exactly. *)
Lemma constant_prices_binary64 :
  exists rs_frame cum_frame,
    simple_returns (F := PrimFloat.float) prices_5_5_5 = Ok rs_frame /\
    float_column rs_frame RETURN
    = Some [None; Some (of_int 0); Some (of_int 0)] /\
    cumulative_returns rs_frame = Ok cum_frame /\
    float_column cum_frame CUMULATIVE_RETURN
    = Some [None; Some (of_int 1); Some (of_int 1)] /\
    max_drawdown rs_frame = Ok (PyFloat (of_int 0)).
Proof.
  assert (Hdiv : fdiv (F := PrimFloat.float) (of_int 5) (of_int 5) = of_int 1)
    by (vm_compute; reflexivity).
  assert (Hsub : fsub (F := PrimFloat.float) (of_int 1) (of_int 1) = of_int 0)
    by (vm_compute; reflexivity).
  assert (Hadd : fadd (F := PrimFloat.float) (of_int 1) (of_int 0) = of_int 1)
    by (vm_compute; reflexivity).
  assert (Hmul : fmul (F := PrimFloat.float) (of_int 1) (of_int 1) = of_int 1)
    by (vm_compute; reflexivity).
  assert (Hone : fdiv (F := PrimFloat.float) (of_int 1) (of_int 1) = of_int 1)
    by (vm_compute; reflexivity).
  apply (constant_prices_rows (of_int 5) Hdiv Hsub Hadd Hmul Hone
           prices_5_5_5 3);
    reflexivity.
Qed.

(** ** Where the claims of the specification fail *)

(** Against C1 as stated.  Integer prices are numeric, and [simple_returns]
    does not find them: only Float64 columns are kept before [close] is
    read. *)
Lemma simple_returns_integer_close :
  option_map (fun s => is_numeric (dtype (values s)))
    (lookup (F := PrimFloat.float) prices_int64 CLOSE) = Some true /\
  simple_returns (F := PrimFloat.float) prices_int64
  = Err (ColumnNotFoundError "close").
Proof. split; reflexivity. Qed.

(** A Float64 column already named [return] collides with the new one. *)
Lemma simple_returns_duplicate_return :
  simple_returns (F := PrimFloat.float) prices_with_return
  = Err (DuplicateError "return").
Proof. reflexivity. Qed.


(** Once the cumulative return is negative the maximum of the drawdown
    column is positive. *)
Lemma max_drawdown_positive :
  max_drawdown (F := PrimFloat.float) returns_below_minus_one
  = Ok (PyFloat (of_int 1)) /\
  fltb (F := PrimFloat.float) (of_int 0) (of_int 1) = true.
Proof. split; reflexivity. Qed.

(** In binary64 the bound also needs finite values.  The prices 0.0, 1.0
    give the return +infinity, which is above -1; the cumulative return and
    its running maximum are +infinity, their quotient is not a number, and
    neither is the result: it is not below or equal to 0. *)
Lemma max_drawdown_not_a_number :
  simple_returns (F := PrimFloat.float) prices_0_1 = Ok (returns_of prices_0_1)
  /\ float_column (F := PrimFloat.float) (returns_of prices_0_1) RETURN
     = Some [None; Some PrimFloat.infinity]
  /\ fltb (F := PrimFloat.float) (of_int (-1)) PrimFloat.infinity = true
  /\ max_drawdown (F := PrimFloat.float) (returns_of prices_0_1)
     = Ok (PyFloat PrimFloat.nan)
  /\ PrimFloat.leb PrimFloat.nan (of_int 0) = false.
Proof. repeat split; vm_compute; reflexivity. Qed.


(** Against C9 as stated.  A constant price: the cumulative return is 1,
    not 0. *)
Lemma constant_prices_cumulative_is_one :
  (r <- simple_returns (F := PrimFloat.float) prices_5_5_5 ;;
   c <- cumulative_returns r ;;
   Ok (float_column c CUMULATIVE_RETURN))
  = Ok (Some [None; Some (of_int 1); Some (of_int 1)]) /\
  fis_zero (F := PrimFloat.float) (of_int 1) = false.
Proof. split; reflexivity. Qed.

(** C3.  On the cumulative return series of the prices 100, 110, 121,
    [cumulative_return_final] raises [ColumnNotFoundError] instead of
    returning the product of [1 + cumulative_return]. *)
Theorem cumulative_return_final_prices :
  (r <- simple_returns (F := PrimFloat.float) prices_100_110_121 ;;
   c <- cumulative_returns r ;;
   cumulative_return_final c)
  = Err (ColumnNotFoundError "cumulative_return").
Proof. reflexivity. Qed.

(** C5.  On the return series of the strictly increasing prices 100, 110,
    121, [compound_annual_growth_rate] raises [ValueError] at
    [count().item()] (the frame has three columns) instead of returning a
    positive value. *)
Theorem compound_annual_growth_rate_prices :
  forall (pow : PrimFloat.float -> PrimFloat.float -> PrimFloat.float)
         (period : AggregationType),
    (r <- simple_returns prices_100_110_121 ;;
     compound_annual_growth_rate pow r period)
    = Err (ValueError (item_shape 1 3)).
Proof. reflexivity. Qed.

(** C6.  On the return series of the prices 100, 110, 121, [sharpe_ratio]
    raises [ColumnNotFoundError] for the column [simple_return] instead of
    returning the ratio. *)
Theorem sharpe_ratio_prices :
  forall (risk_free_rate : PrimFloat.float) (period : AggregationType),
    (r <- simple_returns prices_100_110_121 ;;
     sharpe_ratio r risk_free_rate period)
    = Err (ColumnNotFoundError "simple_return").
Proof. reflexivity. Qed.

(** * Further properties of the methods *)

Section Errors.

Context {F : Type} {ops : Float64Ops F}.

Implicit Types (df data : DataFrame F) (s : Series F) (n : string).

(** ** The column lists *)

Lemma In_numeric_columns data n :
  In n (numeric_columns data) <->
  exists s, In s data /\ name s = n /\ dtype (values s) = Float64.
Proof.
  rewrite numeric_columns_floats. unfold columns. rewrite in_map_iff.
  split; intros [s H]; exists s.
  - destruct H as [Hn Hin]. apply filter_In in Hin.
    destruct Hin as [Hin Hf]. unfold is_float64 in Hf.
    repeat split; try assumption.
    now destruct (dtype (values s)).
  - destruct H as (Hin & Hn & Hty). split; [assumption |].
    apply filter_In. split; [assumption |].
    unfold is_float64. now rewrite Hty.
Qed.

Lemma In_date_column data n :
  In n (date_column data) <->
  exists s, In s data /\ name s = n /\
            (dtype (values s) = Date \/ dtype (values s) = Datetime).
Proof.
  unfold date_column, columns, dtypes.
  induction data as [|c r IH]; simpl.
  - split; [contradiction | now intros [s [[] _]]].
  - destruct (DataType_eqb (dtype (values c)) Date
              || DataType_eqb (dtype (values c)) Datetime) eqn:E; simpl;
      rewrite IH; split.
    + intros [<- | [s (Hin & Hn & Hty)]].
      * exists c. repeat split; auto.
        destruct (dtype (values c)); try discriminate; auto.
      * exists s. auto.
    + intros [s ([<- | Hin] & Hn & Hty)]; [now left |].
      right. exists s. auto.
    + intros [s (Hin & Hn & Hty)]. exists s. auto.
    + intros [s ([<- | Hin] & Hn & Hty)].
      * destruct Hty as [Hty | Hty]; rewrite Hty in E; discriminate.
      * exists s. auto.
Qed.

(** [numeric_columns] lists, in the order of the frame, exactly the
    names of the Float64 columns, and [date_column] exactly the names of the
    Date and Datetime columns. *)
Theorem column_lists_membership data n :
  (In n (numeric_columns data) <->
   exists s, In s data /\ name s = n /\ dtype (values s) = Float64) /\
  (In n (date_column data) <->
   exists s, In s data /\ name s = n /\
             (dtype (values s) = Date \/ dtype (values s) = Datetime)) /\
  numeric_columns data = columns (List.filter is_float64 data).
Proof.
  split; [apply In_numeric_columns |].
  split; [apply In_date_column | apply numeric_columns_floats].
Qed.

(** X1.  In a frame (unique column names) no column is listed both by
    [numeric_columns] and by [date_column]. *)
Theorem column_lists_disjoint data n :
  wf_frame data = true ->
  In n (numeric_columns data) -> ~ In n (date_column data).
Proof.
  intros Hwf Hnum Hdate.
  apply In_numeric_columns in Hnum. apply In_date_column in Hdate.
  destruct Hnum as (s & Hs & Hn & Hty).
  destruct Hdate as (s' & Hs' & Hn' & Hty').
  pose proof (wf_frame_NoDup _ Hwf) as Hnd.
  pose proof (lookup_unique data s Hnd Hs) as H1.
  pose proof (lookup_unique data s' Hnd Hs') as H2.
  rewrite Hn in H1. rewrite Hn' in H2.
  assert (s = s') by congruence. subst s'.
  rewrite Hty in Hty'. destruct Hty'; discriminate.
Qed.

(** ** [simple_returns] on tables that are not price tables *)

Lemma select_float_columns data :
  wf_frame data = true ->
  select data (map Col (numeric_columns data))
  = Ok (List.filter is_float64 data).
Proof.
  intros Hwf. rewrite numeric_columns_floats.
  apply (select_columns data _ (height data)).
  - now apply wf_frame_NoDup.
  - intros x Hx. now apply filter_In in Hx.
  - now apply NoDup_columns_filter, wf_frame_NoDup.
  - pose proof (wf_frame_heights _ Hwf) as Hlen.
    rewrite Forall_forall in Hlen. apply Forall_forall.
    intros x Hx. apply filter_In in Hx. now apply Hlen.
Qed.

Lemma float_column_filter data n xs :
  wf_frame data = true ->
  float_column data n = Some xs ->
  float_column (List.filter is_float64 data) n = Some xs.
Proof.
  intros Hwf H. apply float_column_lookup in H.
  apply lookup_float_column.
  apply (lookup_unique _ (mk_series n (Float64_values xs))).
  - now apply NoDup_columns_filter, wf_frame_NoDup.
  - apply filter_In. split; [eapply lookup_In, H | reflexivity].
Qed.

Lemma first_duplicate_app_last (l : list string) x :
  NoDup l -> In x l -> first_duplicate (l ++ [x]) = Some x.
Proof.
  induction l as [|a r IH]; simpl; [contradiction |].
  intros Hnd Hin. inversion Hnd as [|? ? Ha Hr]; subst.
  destruct (existsb (String.eqb a) (r ++ [x])) eqn:E.
  - apply existsb_eqb_In, in_app_or in E.
    destruct E as [E | [E | []]]; [contradiction | now subst].
  - destruct Hin as [-> | Hin]; [| now apply IH].
    assert (In x (r ++ [x])) by (apply in_or_app; right; now left).
    apply existsb_eqb_In in H. congruence.
Qed.

Lemma mapM_return_exprs data close :
  wf_frame data = true ->
  float_column data CLOSE = Some close ->
  mapM (eval_named (List.filter is_float64 data))
    (flat_map (expand (List.filter is_float64 data))
       [ Star;
         Alias (Sub (TrueDiv (Col CLOSE) (Shift (Col CLOSE) 1)) (LitInt 1))
               RETURN ])
  = Ok (List.filter is_float64 data ++ [return_series_of close]).
Proof.
  intros Hwf Hc. cbn [flat_map expand]. rewrite app_nil_r, mapM_app.
  rewrite mapM_columns
    by (try apply incl_refl; now apply NoDup_columns_filter, wf_frame_NoDup).
  cbn [bind mapM]. rewrite eval_named_Alias.
  now rewrite (eval_return_expr _ close (float_column_filter _ _ _ Hwf Hc)).
Qed.

(** X2.  When no Float64 column is named [close] (the column is missing, or
    holds integers), [simple_returns] raises [ColumnNotFoundError] for
    [close]; [aggregate_returns] then raises the same error for every period,
    also the unsupported ones, because it computes the returns first. *)
Theorem simple_returns_missing_close data :
  wf_frame data = true ->
  ~ In CLOSE (numeric_columns data) ->
  simple_returns data = Err (ColumnNotFoundError CLOSE) /\
  forall convert_to,
    aggregate_returns data convert_to = Err (ColumnNotFoundError CLOSE).
Proof.
  intros Hwf Hno.
  assert (H : simple_returns data = Err (ColumnNotFoundError CLOSE)).
  { unfold simple_returns. rewrite select_float_columns by assumption.
    cbn [bind]. unfold select. cbn [flat_map expand].
    rewrite app_nil_r, mapM_app.
    rewrite mapM_columns
      by (try apply incl_refl;
          now apply NoDup_columns_filter, wf_frame_NoDup).
    cbn [bind mapM]. rewrite eval_named_Alias. cbn [eval].
    unfold get_column. rewrite lookup_not_In; [reflexivity |].
    now rewrite <- numeric_columns_floats. }
  split; [assumption |].
  intros convert_to. unfold aggregate_returns. now rewrite H.
Qed.

(** X3.  [simple_returns] reads the dates from the column named [date]:
    on a table with a Float64 [close] and no column of that name it raises
    [ColumnNotFoundError] for [date], wherever the dates are. *)
Theorem simple_returns_missing_date data close :
  wf_frame data = true ->
  float_column data CLOSE = Some close ->
  ~ In RETURN (numeric_columns data) ->
  lookup data DATE = None ->
  simple_returns data = Err (ColumnNotFoundError DATE).
Proof.
  intros Hwf Hc Hr Hd.
  pose proof (wf_frame_heights _ Hwf) as Hlen.
  rewrite Forall_forall in Hlen.
  unfold simple_returns. rewrite select_float_columns by assumption.
  cbn [bind]. unfold select at 1.
  rewrite (mapM_return_exprs data close) by assumption.
  cbn [bind]. rewrite numeric_columns_floats in Hr.
  rewrite check_unique_ok by (now apply new_columns_NoDup).
  cbn [bind].
  assert (Hall : Forall (fun s => len (values s) = height data)
                   (List.filter is_float64 data ++ [return_series_of close])).
  { apply Forall_app. split.
    - apply Forall_forall. intros x Hx. apply filter_In in Hx.
      now apply Hlen.
    - constructor; [| constructor]. simpl. rewrite length_return_column.
      apply float_column_lookup, lookup_In in Hc. now apply Hlen in Hc. }
  rewrite check_heights_ok.
  - cbn [bind]. unfold select. cbn [flat_map expand app mapM].
    unfold eval_named. cbn [eval]. unfold get_column. now rewrite Hd.
  - rewrite (height_Forall (height data)); [assumption | assumption |].
    now destruct (List.filter is_float64 data).
Qed.

(** The same, with the collision on the name [return]. *)
Lemma simple_returns_duplicate data close :
  wf_frame data = true ->
  float_column data CLOSE = Some close ->
  In RETURN (numeric_columns data) ->
  simple_returns data = Err (DuplicateError RETURN).
Proof.
  intros Hwf Hc Hr.
  unfold simple_returns. rewrite select_float_columns by assumption.
  cbn [bind]. unfold select at 1.
  rewrite (mapM_return_exprs data close) by assumption.
  cbn [bind]. unfold check_unique.
  rewrite map_app. cbn [map]. fold (columns (List.filter is_float64 data)).
  rewrite numeric_columns_floats in Hr.
  rewrite first_duplicate_app_last; [reflexivity | | assumption].
  now apply NoDup_columns_filter, wf_frame_NoDup.
Qed.

(** X4.  A table that already has a Float64 column named [return] cannot
    be given to [simple_returns]: the new column collides with it and the
    call raises [DuplicateError] for [return]. *)
Theorem simple_returns_return_taken data close :
  wf_frame data = true ->
  float_column data CLOSE = Some close ->
  In RETURN (numeric_columns data) ->
  price_table data = false /\
  simple_returns data = Err (DuplicateError RETURN).
Proof.
  intros Hwf Hc Hr. split; [| now apply (simple_returns_duplicate data close)].
  unfold price_table. apply existsb_eqb_In in Hr. rewrite Hr.
  now rewrite !andb_false_r.
Qed.

(** ** The frame [simple_returns] returns *)

Lemma columns_upsert df s :
  columns (upsert df s) =
  if existsb (String.eqb (name s)) (columns df) then columns df
  else columns df ++ [name s].
Proof.
  induction df as [|c r IH]; simpl; [reflexivity |].
  rewrite (String.eqb_sym (name s) (name c)).
  destruct (String.eqb (name c) (name s)) eqn:E; simpl.
  - apply String.eqb_eq in E. now rewrite E.
  - rewrite IH. now destruct (existsb (String.eqb (name s)) (columns r)).
Qed.

Lemma NoDup_columns_upsert df s :
  NoDup (columns df) -> NoDup (columns (upsert df s)).
Proof.
  intros H. rewrite columns_upsert.
  destruct (existsb (String.eqb (name s)) (columns df)) eqn:E;
    [assumption |].
  apply NoDup_app; [assumption | repeat constructor; simpl; tauto |].
  intros a Ha [<- | []]. apply existsb_eqb_In in Ha. congruence.
Qed.

Lemma NoDup_columns_fold_upsert (cols : list (Series F)) df :
  NoDup (columns df) -> NoDup (columns (fold_left upsert cols df)).
Proof.
  revert df. induction cols as [|c r IH]; intros df H; simpl;
    [assumption |].
  now apply IH, NoDup_columns_upsert.
Qed.

Lemma simple_returns_frame_wf data dates close :
  wf_frame data = true ->
  lookup data DATE = Some dates ->
  float_column data CLOSE = Some close ->
  wf_frame (simple_returns_frame data dates close) = true.
Proof.
  intros Hwf Hd Hc. unfold wf_frame.
  assert (Hnd : NoDup (columns (simple_returns_frame data dates close))).
  { apply NoDup_columns_fold_upsert. simpl.
    constructor; [simpl; tauto | constructor]. }
  apply first_duplicate_NoDup in Hnd. rewrite Hnd.
  apply forallb_forall. intros x Hx. apply Nat.eqb_eq.
  pose proof (frame_heights data dates close Hwf Hd Hc) as Hlen.
  rewrite Forall_forall in Hlen.
  rewrite (frame_height data dates close Hwf Hd Hc). now apply Hlen.
Qed.

Lemma simple_returns_frame_other data dates close n :
  lookup data DATE = Some dates ->
  n <> DATE -> n <> RETURN -> ~ In n (numeric_columns data) ->
  lookup (simple_returns_frame data dates close) n = None.
Proof.
  intros Hd Hnd Hnr Hnf.
  unfold simple_returns_frame. rewrite lookup_fold_upsert.
  rewrite lookup_not_In.
  - apply lookup_name in Hd. simpl. rewrite Hd.
    destruct (String.eqb DATE n) eqn:E; [| reflexivity].
    apply String.eqb_eq in E. congruence.
  - unfold columns. rewrite map_rev, <- in_rev, map_app, in_app_iff.
    rewrite numeric_columns_floats in Hnf.
    intros [H | [H | []]]; [now apply Hnf | simpl in H; congruence].
Qed.

(** X5.  Of the columns of a price table, [simple_returns] keeps the
    column [date] and the Float64 columns only: every other column (a
    ticker, an integer volume) is absent from the frame it returns. *)
Theorem simple_returns_drops_other_columns data out n :
  price_table data = true ->
  simple_returns data = Ok out ->
  n <> DATE -> n <> RETURN -> ~ In n (numeric_columns data) ->
  lookup out n = None.
Proof.
  intros Hpt Hsr Hnd Hnr Hnf.
  destruct (price_table_inv _ Hpt) as (Hwf & [dates Hd] & [close Hc] & Hr).
  rewrite (simple_returns_ok data dates close) in Hsr by assumption.
  injection Hsr as <-. now apply simple_returns_frame_other.
Qed.

(** X6.  The frame [simple_returns] returns for a price table is a frame
    (unique names, columns of one height) and a return series, but no longer
    a price table: given back to [simple_returns] it raises [DuplicateError]
    for [return]. *)
Theorem simple_returns_not_twice data out :
  price_table data = true ->
  simple_returns data = Ok out ->
  wf_frame out = true /\
  return_series out = true /\
  price_table out = false /\
  simple_returns out = Err (DuplicateError RETURN).
Proof.
  intros Hpt Hsr.
  destruct (price_table_inv _ Hpt) as (Hwf & [dates Hd] & [close Hc] & Hr).
  rewrite (simple_returns_ok data dates close) in Hsr by assumption.
  injection Hsr as <-.
  pose proof (simple_returns_frame_wf data dates close Hwf Hd Hc) as Hwf'.
  pose proof (frame_return_column data dates close Hwf Hr) as Hret.
  assert (Hin : In RETURN
                  (numeric_columns (simple_returns_frame data dates close))).
  { apply In_numeric_columns.
    exists (mk_series RETURN (Float64_values (return_column close))).
    split; [| split; reflexivity].
    eapply lookup_In, float_column_lookup, Hret. }
  assert (Hclose : float_column (simple_returns_frame data dates close) CLOSE
                   = Some close).
  { apply lookup_float_column.
    apply (frame_float_column data dates close Hwf Hr
             (mk_series CLOSE (Float64_values close))); [| reflexivity].
    eapply lookup_In, float_column_lookup, Hc. }
  split; [assumption |].
  split; [now apply frame_return_series |].
  split.
  - unfold price_table. apply existsb_eqb_In in Hin. rewrite Hin.
    now rewrite !andb_false_r.
  - now apply (simple_returns_duplicate _ close).
Qed.

(** X7.  The methods compose on a price table: the frame of
    [simple_returns] is accepted by [cumulative_returns], which returns a
    frame of the height of the table, and by [max_drawdown], which returns a
    float or [None]. *)
Theorem returns_pipeline data :
  price_table data = true ->
  exists rs_frame cum_frame,
    simple_returns data = Ok rs_frame /\
    cumulative_returns rs_frame = Ok cum_frame /\
    height cum_frame = height data /\
    ((exists x, max_drawdown rs_frame = Ok (PyFloat x)) \/
     max_drawdown rs_frame = Ok PyNone).
Proof.
  intros Hpt.
  destruct (price_table_inv _ Hpt) as (Hwf & [dates Hd] & [close Hc] & Hr).
  pose proof (frame_return_column data dates close Hwf Hr) as Hret.
  pose proof (frame_date_column data dates close Hwf Hd) as Hdate.
  pose proof (frame_return_series data dates close Hwf Hd Hc Hr) as Hrs.
  assert (Hlen : len (values dates) = length (return_column close)).
  { unfold return_series in Hrs. rewrite Hdate, Hret in Hrs.
    now apply Nat.eqb_eq. }
  exists (simple_returns_frame data dates close),
    (cumulative_returns_frame dates (return_column close)).
  split; [now apply simple_returns_ok |].
  split; [now apply cumulative_returns_ok |].
  split.
  - simpl. rewrite Hlen, length_return_column.
    pose proof (wf_frame_heights _ Hwf) as Hl. rewrite Forall_forall in Hl.
    apply float_column_lookup, lookup_In in Hc. now apply Hl in Hc.
  - rewrite (max_drawdown_ok _ dates (return_column close)) by assumption.
    destruct (agg_max _) as [x|]; [left; now exists x | now right].
Qed.

(** ** Missing columns *)

(** X8.  [cumulative_returns] needs the columns [date] and [return]: when
    one is missing it raises [ColumnNotFoundError] for it ([date] first), and
    [max_drawdown] raises the same error. *)
Theorem cumulative_returns_missing_column df :
  lookup df DATE = None \/ lookup df RETURN = None ->
  let missing := match lookup df DATE with
                 | Some _ => RETURN
                 | None => DATE
                 end in
  cumulative_returns df = Err (ColumnNotFoundError missing) /\
  max_drawdown df = Err (ColumnNotFoundError missing).
Proof.
  intros H missing.
  assert (Hc : cumulative_returns df = Err (ColumnNotFoundError missing)).
  { unfold cumulative_returns, select, missing.
    cbn [flat_map expand app mapM].
    destruct (lookup df DATE) as [dates|] eqn:Hd.
    - destruct H as [H | H]; [discriminate |].
      rewrite (eval_named_lookup _ _ _ Hd). cbn [bind].
      unfold eval_named at 1. cbn [eval]. unfold get_column.
      now rewrite H.
    - unfold eval_named at 1. cbn [eval]. unfold get_column.
      now rewrite Hd. }
  split; [assumption |].
  unfold max_drawdown. now rewrite Hc.
Qed.

(** ** Methods that cannot return *)

(** X9.  [cumulative_return_final] returns on no frame: it reads the
    column [cumulative_return] of a result whose only column is named
    [cumulative_return_final]; on a frame with a Float64 column
    [cumulative_return] the error is [ColumnNotFoundError] for that name. *)
Theorem cumulative_return_final_never_returns df :
  (exists e, cumulative_return_final df = Err e) /\
  (float_column df CUMULATIVE_RETURN <> None ->
   cumulative_return_final df
   = Err (ColumnNotFoundError CUMULATIVE_RETURN)).
Proof.
  split; [apply cumulative_return_final_raises |].
  destruct (float_column df CUMULATIVE_RETURN) as [xs|] eqn:E;
    [| congruence].
  intros _. now apply (cumulative_return_final_column df xs).
Qed.

(** X10.  [compound_annual_growth_rate] returns on no frame and for no
    period: [count().item()] needs a frame of exactly one column and
    [cumulative_returns] needs two; on a frame of two columns or more the
    error is the [ValueError] of [item()]. *)
Theorem compound_annual_growth_rate_never_returns pow df period :
  (exists e, compound_annual_growth_rate pow df period = Err e) /\
  (2 <= length df ->
   compound_annual_growth_rate pow df period
   = Err (ValueError (item_shape 1 (length df)))).
Proof.
  split; [apply compound_annual_growth_rate_raises |].
  destruct df as [|s [|s' r]]; simpl; try lia.
  intros _. unfold compound_annual_growth_rate, count, item.
  cbn [map bind height values len length].
  now rewrite length_map.
Qed.

(** X11.  [calmar_ratio] computes the growth rate first, so it returns on
    no frame either and raises what [compound_annual_growth_rate] raises. *)
Theorem calmar_ratio_never_returns pow fabs df period :
  exists e,
    compound_annual_growth_rate pow df period = Err e /\
    calmar_ratio pow fabs df period = Err e.
Proof.
  destruct (compound_annual_growth_rate_raises pow df period) as [e He].
  exists e. split; [assumption |].
  unfold calmar_ratio. now rewrite He.
Qed.

(** ** [annual_volatility] and the ratios built on it *)

Lemma agg_std_None (xs : list (option F)) :
  agg_std xs = None <-> length (non_null xs) <= 1.
Proof.
  unfold agg_std.
  destruct (Nat.leb_spec (length (non_null xs)) 1); split;
    intros; try reflexivity; try assumption; try discriminate; lia.
Qed.


Lemma non_null_length_le {A} (xs : list (option A)) :
  length (non_null xs) <= length xs.
Proof.
  induction xs as [|[a|] r IH]; simpl; lia.
Qed.

Lemma return_column_defined (close : list (option F)) :
  length (non_null (return_column close)) <= length close - 1.
Proof.
  pose proof (length_return_column close) as Hlen.
  destruct close as [|c r]; [now destruct (return_column []) |].
  pose proof (return_column_spec (c :: r) 0 (Nat.lt_0_succ _)) as H0.
  change (spec_simple_return (c :: r) 0) with (Some (@None F)) in H0.
  destruct (return_column (c :: r)) as [|x xs]; [discriminate |].
  cbn [nth_error] in H0. injection H0 as ->.
  cbn [length] in Hlen. cbn [non_null flat_map app length].
  fold (non_null xs). pose proof (non_null_length_le xs). lia.
Qed.

(** X13.  A price series of one or two rows has at most one defined
    return: [annual_volatility] and [omega_ratio] then raise [TypeError] on
    the frame of [simple_returns]. *)
Theorem short_series_volatility data rs_frame rf period :
  price_table data = true ->
  height data <= 2 ->
  simple_returns data = Ok rs_frame ->
  annual_volatility rs_frame period = Err TypeError /\
  omega_ratio rs_frame rf period = Err TypeError.
Proof.
  intros Hpt Hh Hsr.
  destruct (price_table_inv _ Hpt) as (Hwf & [dates Hd] & [close Hc] & Hr).
  rewrite (simple_returns_ok data dates close) in Hsr by assumption.
  injection Hsr as <-.
  pose proof (frame_return_column data dates close Hwf Hr) as Hret.
  assert (Hlen : length close = height data).
  { pose proof (wf_frame_heights _ Hwf) as Hl. rewrite Forall_forall in Hl.
    apply float_column_lookup, lookup_In in Hc. now apply Hl in Hc. }
  assert (Hvol : annual_volatility (simple_returns_frame data dates close)
                   period = Err TypeError).
  { rewrite (annual_volatility_ok _ _ period Hret).
    replace (agg_std (return_column close)) with (@None F); [reflexivity |].
    symmetry. apply agg_std_None.
    pose proof (return_column_defined close). lia. }
  split; [assumption |].
  rewrite (omega_ratio_ok _ _ rf period Hret). now rewrite Hvol.
Qed.

(** X14.  A price series of at most one row has no defined return:
    [max_drawdown] returns [None] on the frame of [simple_returns]. *)
Theorem single_row_max_drawdown data rs_frame :
  price_table data = true ->
  height data <= 1 ->
  simple_returns data = Ok rs_frame ->
  max_drawdown rs_frame = Ok PyNone.
Proof.
  intros Hpt Hh Hsr.
  destruct (price_table_inv _ Hpt) as (Hwf & [dates Hd] & [close Hc] & Hr).
  rewrite (simple_returns_ok data dates close) in Hsr by assumption.
  injection Hsr as <-.
  pose proof (frame_return_column data dates close Hwf Hr) as Hret.
  pose proof (frame_date_column data dates close Hwf Hd) as Hdate.
  pose proof (frame_return_series data dates close Hwf Hd Hc Hr) as Hrs.
  assert (Hl : len (values dates) = length (return_column close)).
  { unfold return_series in Hrs. rewrite Hdate, Hret in Hrs.
    now apply Nat.eqb_eq. }
  assert (Hlen : length close = height data).
  { pose proof (wf_frame_heights _ Hwf) as Hl'. rewrite Forall_forall in Hl'.
    apply float_column_lookup, lookup_In in Hc. now apply Hl' in Hc. }
  rewrite (max_drawdown_ok _ dates (return_column close)) by assumption.
  pose proof (non_null_drawdown_of_returns (return_column close)) as Hcount.
  pose proof (return_column_defined close) as Hdef.
  unfold agg_max.
  destruct (non_null (drawdown_column _)) as [|x r]; [reflexivity |].
  simpl in Hcount. lia.
Qed.



Lemma eval_downside_expr_of df n xs rf :
  float_column df n = Some xs ->
  eval df (Sum (Filter (Sub (Col n) (LitFloat rf))
                       (Less (Col n) (LitFloat rf))))
  = Ok (Float64_values [Some (spec_excess_sum (fun r => fltb r rf) xs rf)]).
Proof.
  intros H. apply float_column_lookup in H.
  cbn [eval]. unfold get_column. rewrite H. cbn.
  rewrite !broadcast2_scalar_r. cbn.
  rewrite !length_map, Nat.eqb_refl. cbn.
  unfold agg_sum. now rewrite non_null_filter_excess.
Qed.

(** X15.  [sharpe_ratio] and [sortino_ratio] read the column
    [simple_return]: on every frame without a column of that name, the frame
    of [simple_returns] among them, both raise [ColumnNotFoundError]. *)
Theorem ratios_missing_simple_return df rf period :
  lookup df "simple_return" = None ->
  sharpe_ratio df rf period = Err (ColumnNotFoundError "simple_return") /\
  sortino_ratio df rf period = Err (ColumnNotFoundError "simple_return").
Proof.
  intros H. split.
  - unfold sharpe_ratio, select. cbn [flat_map expand app mapM].
    rewrite eval_named_Alias. cbn [eval]. unfold get_column.
    now rewrite H.
  - unfold sortino_ratio, select. cbn [flat_map expand app mapM].
    rewrite eval_named_Alias. cbn [eval]. unfold get_column.
    now rewrite H.
Qed.


(** X17.  On a frame whose columns [simple_return] and [return] hold the
    same values, [sortino_ratio] and [omega_ratio] are the same number (or
    the same error): both divide the downside sum by the annualization
    factor and by the total annual volatility. *)
Theorem sortino_ratio_is_omega_ratio df xs rf period :
  float_column df "simple_return" = Some xs ->
  float_column df RETURN = Some xs ->
  sortino_ratio df rf period = omega_ratio df rf period.
Proof.
  intros Hs Hr. rewrite (omega_ratio_ok df xs rf period Hr).
  unfold sortino_ratio.
  rewrite (select_aggregate _ _ _ _ (eval_downside_expr_of _ _ _ rf Hs)).
  cbn. now rewrite annualization_faactor_nonzero.
Qed.

(** ** [aggregate_returns]: the monthly and yearly buckets *)

Lemma with_columns_upsert df (e : Expr F) n v :
  eval df e = Ok v ->
  df <> [] ->
  len v = height df ->
  with_columns df [Alias e n] = Ok (upsert df (mk_series n v)).
Proof.
  intros He Hdf Hlen.
  unfold with_columns. cbn [flat_map expand app mapM].
  rewrite eval_named_Alias, He. cbn [bind].
  unfold with_series. rewrite check_unique_ok
    by (simpl; constructor; [simpl; tauto | constructor]).
  cbn [bind]. destruct df as [|c r]; [congruence |].
  now rewrite check_heights_ok by (now repeat constructor).
Qed.

Lemma eval_strftime df dates ds format :
  lookup df DATE = Some dates ->
  dates_of (values dates) = Some ds ->
  eval df (StrfTime (Col DATE) format)
  = Ok (Utf8_values (map (option_map (fun d => strftime d format)) ds)).
Proof.
  intros Hd Hds. cbn [eval]. unfold get_column. rewrite Hd. cbn [bind].
  destruct (values dates); try discriminate; injection Hds as <-.
  - reflexivity.
  - rewrite map_map. do 2 f_equal. apply map_ext. now intros [a|].
Qed.

Lemma length_dates_of (v : Values F) ds :
  dates_of v = Some ds -> length ds = len v.
Proof.
  destruct v; try discriminate; intros [= <-]; simpl;
    [reflexivity | apply length_map].
Qed.

Lemma aggregate_returns_keyed data convert_to format :
  bucket_format convert_to = Some format ->
  aggregate_returns data convert_to
  = (returns <- simple_returns data ;;
     keyed <- with_columns returns
                [Alias (StrfTime (Col DATE) format) "group_by_key"] ;;
     Ok (group_by keyed "group_by_key")).
Proof.
  unfold aggregate_returns.
  destruct convert_to; try discriminate; now intros [= <-].
Qed.

(** X18.  For the monthly and the yearly period, on a price table whose
    column [date] is a Date or Datetime column with years below 10000,
    [aggregate_returns] returns the frame of [simple_returns] with one more
    column, [group_by_key], grouped by it: row by row the date formatted as
    "%Y-%m" or "%Y" (null where the date is null); the other columns and the
    height are those of the frame of [simple_returns]. *)
Theorem aggregate_returns_buckets data dates ds convert_to format :
  price_table data = true ->
  lookup data DATE = Some dates ->
  dates_of (values dates) = Some ds ->
  Forall formattable ds ->
  bucket_format convert_to = Some format ->
  exists rs_frame keyed,
    simple_returns data = Ok rs_frame /\
    aggregate_returns data convert_to
    = Ok (mk_group_by keyed "group_by_key") /\
    lookup keyed "group_by_key"
    = Some (mk_series "group_by_key"
              (Utf8_values
                 (map (option_map (fun d => strftime d format)) ds))) /\
    height keyed = height data /\
    forall n, n <> "group_by_key" -> lookup keyed n = lookup rs_frame n.
Proof.
  intros Hpt Hd Hds _ Hfmt.
  destruct (price_table_inv _ Hpt) as (Hwf & [dates' Hd'] & [close Hc] & Hr).
  assert (dates' = dates) by congruence. subst dates'.
  set (rs := simple_returns_frame data dates close).
  set (key := mk_series "group_by_key"
                (Utf8_values
                   (map (option_map (fun d => strftime d format)) ds))).
  pose proof (frame_date_column data dates close Hwf Hd) as Hdate.
  pose proof (frame_heights data dates close Hwf Hd Hc) as Hlen.
  pose proof (frame_height data dates close Hwf Hd Hc) as Hh.
  fold rs in Hdate, Hlen, Hh.
  assert (Hne : rs <> []) by (apply fold_upsert_nonempty; discriminate).
  assert (Hkey : len (values key) = height data).
  { simpl. rewrite length_map, (length_dates_of _ _ Hds).
    pose proof (wf_frame_heights _ Hwf) as Hl. rewrite Forall_forall in Hl.
    eapply Hl, lookup_In, Hd. }
  exists rs, (upsert rs key).
  split; [now apply simple_returns_ok |].
  split.
  - rewrite (aggregate_returns_keyed _ _ _ Hfmt).
    rewrite (simple_returns_ok data dates close) by assumption.
    cbn [bind]. fold rs.
    rewrite (with_columns_upsert rs _ "group_by_key" (values key)).
    + reflexivity.
    + now apply (eval_strftime rs dates).
    + assumption.
    + congruence.
  - split.
    { rewrite lookup_upsert. change (name key) with "group_by_key".
      now rewrite String.eqb_refl. }
    split.
    + apply height_Forall.
      * apply Forall_upsert; [assumption | exact Hkey].
      * destruct rs as [|c r]; [congruence |]. cbn [upsert].
        destruct (String.eqb (name c) (name key)); discriminate.
    + intros n Hn. rewrite lookup_upsert.
      change (name key) with "group_by_key".
      destruct (String.eqb "group_by_key" n) eqn:E; [| reflexivity].
      apply String.eqb_eq in E. congruence.
Qed.

(** X19.  For the monthly and the yearly period, on a price table whose
    column [date] is not a Date or Datetime column (day numbers, strings),
    [aggregate_returns] raises: [dt.strftime] has no dates to format. *)
Theorem aggregate_returns_needs_dates data dates convert_to format :
  price_table data = true ->
  lookup data DATE = Some dates ->
  dates_of (values dates) = None ->
  bucket_format convert_to = Some format ->
  exists e, aggregate_returns data convert_to = Err e.
Proof.
  intros Hpt Hd Hds Hfmt.
  destruct (price_table_inv _ Hpt) as (Hwf & [dates' Hd'] & [close Hc] & Hr).
  assert (dates' = dates) by congruence. subst dates'.
  rewrite (aggregate_returns_keyed _ _ _ Hfmt).
  rewrite (simple_returns_ok data dates close) by assumption.
  cbn [bind]. unfold with_columns. cbn [flat_map expand app mapM].
  rewrite eval_named_Alias. cbn [eval]. unfold get_column.
  rewrite (frame_date_column data dates close Hwf Hd). cbn [bind].
  exists InvalidOperationError.
  now destruct (values dates).
Qed.

End Errors.

(** ** The bucket keys *)

Lemma String_inj c s c' s' :
  String c s = String c' s' -> c = c' /\ s = s'.
Proof. intros H. now injection H. Qed.

Lemma digit_inj a b :
  ascii_of_nat (48 + a mod 10) = ascii_of_nat (48 + b mod 10) ->
  a mod 10 = b mod 10.
Proof.
  intros H. apply (f_equal nat_of_ascii) in H.
  assert (Ha : a mod 10 < 10) by (apply Nat.mod_upper_bound; discriminate).
  assert (Hb : b mod 10 < 10) by (apply Nat.mod_upper_bound; discriminate).
  rewrite !nat_ascii_embedding in H by lia. lia.
Qed.

Lemma monthly_key_form d :
  strftime d "%Y-%m"
  = String (ascii_of_nat (48 + (year d / 100 / 10) mod 10))
      (String (ascii_of_nat (48 + (year d / 100) mod 10))
         (String (ascii_of_nat (48 + (year d / 10) mod 10))
            (String (ascii_of_nat (48 + year d mod 10))
               (String "-"
                  (String (ascii_of_nat (48 + (month d / 10) mod 10))
                     (String (ascii_of_nat (48 + month d mod 10)) "")))))).
Proof. reflexivity. Qed.

Lemma yearly_key_form d :
  strftime d "%Y"
  = String (ascii_of_nat (48 + (year d / 100 / 10) mod 10))
      (String (ascii_of_nat (48 + (year d / 100) mod 10))
         (String (ascii_of_nat (48 + (year d / 10) mod 10))
            (String (ascii_of_nat (48 + year d mod 10)) ""))).
Proof. reflexivity. Qed.

Lemma four_digits_expand a :
  (Z.of_nat a < 10000)%Z ->
  a = 10 * (10 * (10 * ((a / 100 / 10) mod 10) + (a / 100) mod 10)
            + (a / 10) mod 10) + a mod 10.
Proof.
  intros Ha.
  assert (Hsmall : a / 100 / 10 / 10 = 0).
  { apply Nat.div_small. rewrite Nat.Div0.div_div.
    apply Nat.Div0.div_lt_upper_bound. lia. }
  pose proof (Nat.div_mod_eq a 10) as E1.
  pose proof (Nat.div_mod_eq (a / 10) 10) as E2.
  rewrite Nat.Div0.div_div in E2. change (10 * 10) with 100 in E2.
  pose proof (Nat.div_mod_eq (a / 100) 10) as E3.
  pose proof (Nat.div_mod_eq (a / 100 / 10) 10) as E4.
  rewrite Hsmall in E4. lia.
Qed.

Lemma four_digits_eq a b :
  (Z.of_nat a < 10000)%Z -> (Z.of_nat b < 10000)%Z ->
  (a / 100 / 10) mod 10 = (b / 100 / 10) mod 10 ->
  (a / 100) mod 10 = (b / 100) mod 10 ->
  (a / 10) mod 10 = (b / 10) mod 10 ->
  a mod 10 = b mod 10 ->
  a = b.
Proof.
  intros Ha Hb H1 H2 H3 H4.
  rewrite (four_digits_expand a Ha), (four_digits_expand b Hb).
  now rewrite H1, H2, H3, H4.
Qed.

Lemma two_digits_eq a b :
  a < 100 -> b < 100 ->
  (a / 10) mod 10 = (b / 10) mod 10 -> a mod 10 = b mod 10 -> a = b.
Proof.
  intros Ha Hb H1 H2.
  pose proof (Nat.div_mod_eq a 10) as Ea.
  pose proof (Nat.div_mod_eq b 10) as Eb.
  assert (Ha' : a / 10 < 10) by (apply Nat.Div0.div_lt_upper_bound; lia).
  assert (Hb' : b / 10 < 10) by (apply Nat.Div0.div_lt_upper_bound; lia).
  rewrite (Nat.mod_small (a / 10)) in H1 by assumption.
  rewrite (Nat.mod_small (b / 10)) in H1 by assumption.
  lia.
Qed.

(** X20.  The bucket keys separate the periods: for years below 10000, two
    dates have the same monthly key exactly when they have the same year and
    month, and the same yearly key exactly when they have the same year. *)
Theorem bucket_keys_separate (d d' : date) :
  (Z.of_nat (year d) < 10000)%Z -> (Z.of_nat (year d') < 10000)%Z ->
  month d < 100 -> month d' < 100 ->
  (strftime d "%Y-%m" = strftime d' "%Y-%m" <->
   year d = year d' /\ month d = month d') /\
  (strftime d "%Y" = strftime d' "%Y" <-> year d = year d').
Proof.
  intros Hy Hy' Hm Hm'. split; split.
  - rewrite !monthly_key_form. intros H.
    apply String_inj in H. destruct H as [H1 H].
    apply String_inj in H. destruct H as [H2 H].
    apply String_inj in H. destruct H as [H3 H].
    apply String_inj in H. destruct H as [H4 H].
    apply String_inj in H. destruct H as [_ H].
    apply String_inj in H. destruct H as [H5 H].
    apply String_inj in H. destruct H as [H6 _].
    apply digit_inj in H1, H2, H3, H4, H5, H6.
    split; [now apply four_digits_eq | now apply two_digits_eq].
  - rewrite !monthly_key_form. now intros [-> ->].
  - rewrite !yearly_key_form. intros H.
    apply String_inj in H. destruct H as [H1 H].
    apply String_inj in H. destruct H as [H2 H].
    apply String_inj in H. destruct H as [H3 H].
    apply String_inj in H. destruct H as [H4 _].
    apply digit_inj in H1, H2, H3, H4.
    now apply four_digits_eq.
  - rewrite !yearly_key_form. now intros ->.
Qed.

(** ** What [max_drawdown] reports, in exact arithmetic *)

Section ExactDrawdown.

Local Open Scope Q_scope.

Lemma fmax_ge_l (x y : Q) : x <= fmax x y.
Proof.
  unfold fmax. destruct (fltb x y) eqn:E; [| apply Qle_refl].
  apply fltb_lt in E. now apply Qlt_le_weak.
Qed.

Lemma fold_fmax_ge_start (l : list Q) x : x <= fold_left fmax l x.
Proof.
  revert x. induction l as [|a r IH]; intros x; simpl; [apply Qle_refl |].
  eapply Qle_trans; [apply (fmax_ge_l x a) | apply IH].
Qed.

Lemma fold_fmax_ge (l : list Q) x y :
  In y l -> y <= fold_left fmax l x.
Proof.
  revert x. induction l as [|a r IH]; intros x; simpl; [contradiction |].
  intros [-> | Hin]; [| now apply IH].
  eapply Qle_trans; [apply (fmax_ge_r x y) | apply fold_fmax_ge_start].
Qed.

Lemma first_drawdown_is_zero (cumulative : list (option Q)) :
  non_null cumulative <> [] ->
  Forall (fun x => 0 < x) (non_null cumulative) ->
  In 0 (non_null (drawdown_column cumulative)).
Proof.
  unfold drawdown_column.
  induction cumulative as [|[v|] r IH]; intros Hne Hpos.
  - now contradiction Hne.
  - left. simpl in Hpos. inversion Hpos as [|? ? Hv _]; subst.
    change (Qred (Qred (v / v) - inject_Z 1) = 0).
    rewrite Qred_div_same; [reflexivity |].
    intros H. rewrite H in Hv. discriminate.
  - simpl. now apply IH.
Qed.

(** X21.  In exact arithmetic, on a return series with a defined return
    and every return above -1, [max_drawdown] returns 0: the first defined
    row stands at its own running maximum and no row stands above it, so the
    maximum of the drawdown column never shows a loss. *)
Theorem max_drawdown_is_zero (df : DataFrame Q) (returns : list (option Q)) :
  return_series df = true ->
  float_column df RETURN = Some returns ->
  non_null returns <> [] ->
  Forall (fun r => -1 < r) (non_null returns) ->
  exists d, max_drawdown df = Ok (PyFloat d) /\ d == 0.
Proof.
  intros Hrs Hr Hne Hall.
  destruct (return_series_inv _ Hrs) as (dates & returns' & Hd & Hr' & Hlen).
  assert (returns' = returns) by congruence. subst returns'.
  rewrite (max_drawdown_ok df dates returns) by assumption.
  assert (Hpos : Forall (fun x => 0 < x)
                   (non_null (cumulative_column returns))).
  { apply (cumulative_positive None); [exact I |].
    rewrite non_null_map_lift2. apply Forall_map.
    eapply Forall_impl; [| exact Hall].
    intros a Ha. cbv beta in Ha. change (0 < Qred (inject_Z 1 + a)).
    rewrite Qred_correct. unfold inject_Z. lra. }
  assert (Hcum : non_null (cumulative_column returns) <> []).
  { unfold cumulative_column. intros H.
    apply (f_equal (@length Q)) in H.
    rewrite non_null_cum_scan_length, non_null_map_lift2, length_map in H.
    destruct (non_null returns); [congruence | discriminate]. }
  pose proof (first_drawdown_is_zero _ Hcum Hpos) as Hzero.
  pose proof (drawdowns_nonpos None _ Hpos) as Hle.
  fold (drawdown_column (cumulative_column returns)) in Hle.
  unfold agg_max.
  destruct (non_null (drawdown_column (cumulative_column returns)))
    as [|x r]; [contradiction |].
  exists (fold_left fmax r x). split; [reflexivity |].
  apply Qle_antisym.
  - inversion Hle; subst. now apply fold_fmax_nonpos.
  - destruct Hzero as [<- | Hin];
      [apply fold_fmax_ge_start | now apply fold_fmax_ge].
Qed.

End ExactDrawdown.

(** ** The sign of [omega_ratio], in exact arithmetic *)

Section ExactOmega.

Local Open Scope Q_scope.

Lemma Q_sqrt_nonneg (x : Q) : 0 <= Q_sqrt x.
Proof.
  unfold Q_sqrt. rewrite Qred_correct. unfold Qle. simpl.
  rewrite Z.mul_1_r. apply Z.sqrt_nonneg.
Qed.

Lemma fold_fadd_nonpos (l : list Q) acc :
  acc <= 0 -> Forall (fun e => e <= 0) l -> fold_left fadd l acc <= 0.
Proof.
  revert acc. induction l as [|e r IH]; intros acc Hacc Hl; simpl;
    [assumption |].
  inversion Hl; subst. apply IH; [| assumption].
  change (Qred (acc + e) <= 0). rewrite Qred_correct. lra.
Qed.

Lemma downside_sum_nonpos (returns : list (option Q)) rf :
  spec_excess_sum (fun r => fltb r rf) returns rf <= 0.
Proof.
  unfold spec_excess_sum. apply fold_fadd_nonpos; [apply Qle_refl |].
  apply Forall_map, Forall_forall. intros r Hr.
  apply filter_In in Hr. destruct Hr as [_ Hr]. apply fltb_lt in Hr.
  change (Qred (r - rf) <= 0). rewrite Qred_correct. lra.
Qed.

Lemma annualization_faactor_pos period :
  0 < inject_Z (annualization_faactor period).
Proof. now destruct period. Qed.

(** X22.  In exact arithmetic, [omega_ratio] never returns a positive
    number: on a frame with a Float64 column [return], whatever it returns
    is a float [<= 0], since only the returns below the risk-free rate enter
    the sum. *)
Theorem omega_ratio_never_positive (df : DataFrame Q) returns rf period v :
  float_column df RETURN = Some returns ->
  omega_ratio df rf period = Ok v ->
  exists x, v = PyFloat x /\ x <= 0.
Proof.
  intros Hr Hv.
  rewrite (omega_ratio_ok df returns rf period Hr) in Hv.
  rewrite (annual_volatility_ok df returns period Hr) in Hv.
  destruct (agg_std returns) as [sd|] eqn:Hsd; [| discriminate].
  cbn [opt_py py_mul math_sqrt bind py_truediv] in Hv.
  set (vol := fmul sd (fsqrt (of_int (annualization_faactor period)))) in *.
  set (q := fdiv (spec_excess_sum (fun r => fltb r rf) returns rf)
              (of_int (annualization_faactor period))) in *.
  destruct (fis_zero vol) eqn:Hz; [discriminate |].
  injection Hv as <-. exists (fdiv q vol). split; [reflexivity |].
  assert (Hsd0 : 0 <= sd).
  { unfold agg_std in Hsd.
    destruct (length (non_null returns) <=? 1)%nat; [discriminate |].
    injection Hsd as <-. apply Q_sqrt_nonneg. }
  assert (Hvol : 0 < vol).
  { assert (H0 : 0 <= vol).
    { unfold vol. change (0 <= Qred (sd * Q_sqrt (inject_Z
                                        (annualization_faactor period)))).
      rewrite Qred_correct. apply Qmult_le_0_compat;
        [assumption | apply Q_sqrt_nonneg]. }
    apply Qle_lt_or_eq in H0. destruct H0 as [H0 | H0]; [assumption |].
    change (Qeq_bool vol 0 = false) in Hz.
    apply Qeq_bool_neq in Hz. exfalso. apply Hz. now symmetry. }
  assert (Hq : q <= 0).
  { unfold q. change (Qred (spec_excess_sum (fun r => fltb r rf) returns rf
                            / inject_Z (annualization_faactor period)) <= 0).
    rewrite Qred_correct. apply Qle_shift_div_r;
      [apply annualization_faactor_pos |].
    rewrite Qmult_0_l. apply downside_sum_nonpos. }
  change (Qred (q / vol) <= 0). rewrite Qred_correct.
  apply Qle_shift_div_r; [assumption |]. now rewrite Qmult_0_l.
Qed.

End ExactOmega.

(** ** The values of [annual_volatility] and of the ratios, in exact
    arithmetic *)

Section ExactRatios.

Local Open Scope Q_scope.







(** The root of [Rational] is the root rounded down to nine decimals. *)
Lemma Q_sqrt_floor (x : Q) :
  0 <= x ->
  Q_sqrt x * Q_sqrt x <= x /\
  x < (Q_sqrt x + (1 # 1000000000)) * (Q_sqrt x + (1 # 1000000000)).
Proof.
  intros Hx. unfold Q_sqrt.
  destruct x as [a d]. unfold Qle in Hx. simpl in Hx. rewrite Z.mul_1_r in Hx.
  cbn [Qnum Qden].
  set (n := (a * 10 ^ 18 / Zpos d)%Z).
  assert (Hd : (0 < Zpos d)%Z) by reflexivity.
  assert (Hn : (0 <= n)%Z).
  { unfold n. apply Z.div_pos; [| assumption].
    apply Z.mul_nonneg_nonneg; [assumption | now apply Z.pow_nonneg]. }
  pose proof (Z.sqrt_spec n Hn) as [Hs1 Hs2].
  pose proof (Z.sqrt_nonneg n) as Hs0.
  assert (Hlo : (n * Zpos d <= a * 10 ^ 18)%Z).
  { unfold n. rewrite Z.mul_comm. apply Z.mul_div_le. assumption. }
  assert (Hhi : (a * 10 ^ 18 < (n + 1) * Zpos d)%Z).
  { unfold n. rewrite (Z.mul_comm _ (Zpos d)), Z.mul_add_distr_l, Z.mul_1_r.
    pose proof (Z.mul_succ_div_gt (a * 10 ^ 18) (Zpos d) Hd). lia. }
  set (s := Z.sqrt n) in *.
  change (10 ^ 18)%Z with (1000000000 * 1000000000)%Z in *.
  rewrite !Qred_correct.
  set (K := 1000000000%positive) in *.
  split.
  - unfold Qle, Qmult. cbn [Qnum Qden].
    change (Zpos (K * K)) with (Zpos K * Zpos K)%Z.
    change 1000000000%Z with (Zpos K) in *.
    nia.
  - unfold Qlt, Qmult, Qplus. cbn [Qnum Qden].
    rewrite !Pos2Z.inj_mul.
    change 1000000000%Z with (Zpos K) in *.
    assert (0 < Zpos K)%Z by reflexivity.
    nia.
Qed.







End ExactRatios.

(** ** Runs of the further properties *)

Lemma column_lists_disjoint_witness :
  ~ In "close" (date_column (F := PrimFloat.float) prices_100_90_99).
Proof.
  apply (column_lists_disjoint (F := PrimFloat.float) prices_100_90_99 "close"
           eq_refl).
  simpl. tauto.
Defined.

Lemma simple_returns_missing_close_witness :
  simple_returns (F := PrimFloat.float) prices_int64
  = Err (ColumnNotFoundError CLOSE) /\
  forall convert_to,
    aggregate_returns (F := PrimFloat.float) prices_int64 convert_to
    = Err (ColumnNotFoundError CLOSE).
Proof.
  apply (simple_returns_missing_close (F := PrimFloat.float) prices_int64
           eq_refl).
  simpl. tauto.
Defined.

Lemma simple_returns_missing_date_witness :
  simple_returns (F := PrimFloat.float) prices_by_timestamp
  = Err (ColumnNotFoundError DATE).
Proof.
  apply (simple_returns_missing_date (F := PrimFloat.float)
           prices_by_timestamp
           [Some (of_int 100); Some (of_int 110); Some (of_int 121)]
           eq_refl eq_refl); [| reflexivity].
  simpl. intros [H | []]. discriminate H.
Defined.

Lemma simple_returns_return_taken_witness :
  price_table (F := PrimFloat.float) prices_with_return = false /\
  simple_returns (F := PrimFloat.float) prices_with_return
  = Err (DuplicateError RETURN).
Proof.
  apply (simple_returns_return_taken (F := PrimFloat.float)
           prices_with_return
           [Some (of_int 100); Some (of_int 110); Some (of_int 121)]
           eq_refl eq_refl).
  simpl. tauto.
Defined.

Lemma simple_returns_drops_other_columns_witness :
  lookup (F := PrimFloat.float) (returns_of prices_100_90_99) "ticker" = None.
Proof.
  assert (Hrun : simple_returns (F := PrimFloat.float) prices_100_90_99
                 = Ok (returns_of prices_100_90_99))
    by (vm_compute; reflexivity).
  apply (simple_returns_drops_other_columns prices_100_90_99 _ "ticker"
           eq_refl Hrun); try discriminate.
  simpl. intros [H | [H | []]]; discriminate H.
Defined.

Lemma simple_returns_not_twice_witness :
  simple_returns (F := PrimFloat.float) (returns_of prices_100_110_121)
  = Err (DuplicateError RETURN).
Proof.
  assert (Hrun : simple_returns (F := PrimFloat.float) prices_100_110_121
                 = Ok (returns_of prices_100_110_121))
    by (vm_compute; reflexivity).
  apply (simple_returns_not_twice prices_100_110_121 _ eq_refl Hrun).
Defined.

Lemma returns_pipeline_witness :
  exists rs_frame cum_frame,
    simple_returns (F := PrimFloat.float) prices_100_110_121 = Ok rs_frame /\
    cumulative_returns rs_frame = Ok cum_frame /\
    height cum_frame = 3%nat.
Proof.
  destruct (returns_pipeline (F := PrimFloat.float) prices_100_110_121 eq_refl)
    as (rs & cum & H1 & H2 & H3 & _).
  exists rs, cum. split; [exact H1 |]. split; [exact H2 | exact H3].
Defined.

Lemma cumulative_returns_missing_column_witness :
  cumulative_returns (F := PrimFloat.float) prices_100_110_121
  = Err (ColumnNotFoundError RETURN) /\
  max_drawdown (F := PrimFloat.float) prices_100_110_121
  = Err (ColumnNotFoundError RETURN).
Proof.
  apply (cumulative_returns_missing_column (F := PrimFloat.float)
           prices_100_110_121).
  right. reflexivity.
Defined.

Lemma short_series_volatility_witness :
  annual_volatility (F := PrimFloat.float) (returns_of two_prices) MONTHLY
  = Err TypeError /\
  omega_ratio (F := PrimFloat.float) (returns_of two_prices) (of_int 0)
    MONTHLY
  = Err TypeError.
Proof.
  assert (Hrun : simple_returns (F := PrimFloat.float) two_prices
                 = Ok (returns_of two_prices))
    by (vm_compute; reflexivity).
  apply (short_series_volatility two_prices _ (of_int 0) MONTHLY eq_refl);
    [simpl; lia | exact Hrun].
Defined.

Lemma single_row_max_drawdown_witness :
  max_drawdown (F := PrimFloat.float) (returns_of single_price) = Ok PyNone.
Proof.
  assert (Hrun : simple_returns (F := PrimFloat.float) single_price
                 = Ok (returns_of single_price))
    by (vm_compute; reflexivity).
  apply (single_row_max_drawdown single_price _ eq_refl);
    [simpl; lia | exact Hrun].
Defined.

Lemma ratios_missing_simple_return_witness :
  sharpe_ratio (F := PrimFloat.float) (returns_of prices_100_110_121)
    (of_int 0) DAY
  = Err (ColumnNotFoundError "simple_return") /\
  sortino_ratio (F := PrimFloat.float) (returns_of prices_100_110_121)
    (of_int 0) DAY
  = Err (ColumnNotFoundError "simple_return").
Proof.
  apply (ratios_missing_simple_return (F := PrimFloat.float)).
  vm_compute. reflexivity.
Defined.

Lemma sortino_ratio_is_omega_ratio_witness :
  sortino_ratio (F := Q) returns_under_both_names 0%Q DAY
  = omega_ratio returns_under_both_names 0%Q DAY.
Proof.
  exact (sortino_ratio_is_omega_ratio (F := Q) returns_under_both_names
           [None; Some (-1)%Q; Some 2%Q] 0%Q DAY eq_refl eq_refl).
Defined.

Lemma aggregate_returns_buckets_witness :
  exists keyed,
    aggregate_returns (F := PrimFloat.float) prices_100_110_121 MONTHLY
    = Ok (mk_group_by keyed "group_by_key") /\
    lookup keyed "group_by_key"
    = Some (mk_series "group_by_key"
              (Utf8_values [Some "2024-01"; Some "2024-01"; Some "2024-02"])).
Proof.
  destruct (aggregate_returns_buckets (F := PrimFloat.float)
              prices_100_110_121 (mk_series "date" three_days)
              [ Some (mk_date 2024 1 30); Some (mk_date 2024 1 31);
                Some (mk_date 2024 2 1) ]
              MONTHLY "%Y-%m" eq_refl eq_refl eq_refl
              ltac:(repeat constructor; simpl; lia) eq_refl)
    as (rs & keyed & _ & H2 & H3 & _).
  exists keyed. split; [exact H2 | exact H3].
Defined.

Lemma aggregate_returns_needs_dates_witness :
  exists e,
    aggregate_returns (F := PrimFloat.float) prices_numbered_days YEARLY
    = Err e.
Proof.
  apply (aggregate_returns_needs_dates (F := PrimFloat.float)
           prices_numbered_days
           (mk_series "date" (floats_of [19752; 19753; 19754]%Z))
           YEARLY "%Y" eq_refl eq_refl eq_refl eq_refl).
Defined.

Lemma bucket_keys_separate_witness :
  strftime (mk_date 2024 1 30) "%Y-%m" = strftime (mk_date 2024 1 31) "%Y-%m"
  /\ strftime (mk_date 2024 1 31) "%Y-%m"
     <> strftime (mk_date 2024 2 1) "%Y-%m".
Proof.
  assert (Hy : (Z.of_nat 2024 < 10000)%Z) by (simpl; lia).
  split.
  - destruct (bucket_keys_separate (mk_date 2024 1 30) (mk_date 2024 1 31)
                Hy Hy ltac:(simpl; lia) ltac:(simpl; lia)) as [Hm _].
    apply Hm. split; reflexivity.
  - destruct (bucket_keys_separate (mk_date 2024 1 31) (mk_date 2024 2 1)
                Hy Hy ltac:(simpl; lia) ltac:(simpl; lia)) as [Hm _].
    intros H. apply Hm in H. destruct H as [_ H]. discriminate H.
Defined.

Lemma max_drawdown_is_zero_witness :
  exists d,
    max_drawdown (F := Q) (returns_of prices_100_90_99) = Ok (PyFloat d) /\
    (d == 0)%Q.
Proof.
  assert (Hr : float_column (F := Q) (returns_of prices_100_90_99) RETURN
               = Some [None; Some (-1 # 10)%Q; Some (1 # 10)%Q])
    by (vm_compute; reflexivity).
  apply (max_drawdown_is_zero (returns_of prices_100_90_99) _ eq_refl Hr);
    [discriminate |].
  repeat constructor.
Defined.

Lemma omega_ratio_never_positive_witness :
  exists x,
    omega_ratio (F := Q) (returns_of prices_100_90_99) (1 # 20)%Q DAY
    = Ok (PyFloat x) /\ (x <= 0)%Q.
Proof.
  assert (Hr : float_column (F := Q) (returns_of prices_100_90_99) RETURN
               = Some [None; Some (-1 # 10)%Q; Some (1 # 10)%Q])
    by (vm_compute; reflexivity).
  assert (Hv : omega_ratio (F := Q) (returns_of prices_100_90_99)
                 (1 # 20)%Q DAY
               = Ok (PyFloat (-1562500000000000 # 5893110374136264027)%Q))
    by (vm_compute; reflexivity).
  destruct (omega_ratio_never_positive _ _ _ _ _ Hr Hv) as (x & Hx & Hle).
  exists x. split; [now rewrite Hv, Hx | exact Hle].
Defined.



